(** * Reflections sync: Todoist tasks to a Notion child page

    A shallow embedding of [reflections_sync.py] and the properties of its
    three parts: the Todoist client, the Notion client and the orchestrator
    [main].

    Python values that come out of [response.json()] or of the Notion SDK
    are modelled by [json]; a raised exception by [exn]; a computation that
    may raise by [outcome]; a computation that also talks to the outside
    (HTTP requests, SDK calls, [print]) by [M], which records the calls in
    the order they are made.  The answers of the outside are collected in a
    [World]. *)

Set Warnings "-register-all".
From Stdlib Require Import ZArith String Ascii List Lia.
From Stdlib Require Import Floats.PrimFloat.
From stdpp Require Import base option list strings gmap pretty.
Import ListNotations.
Open Scope string_scope.
Open Scope list_scope.
Open Scope Z_scope.

(** ** Python values *)

(** What [json.loads] builds: [None], [bool], [int], [float], [str], [list]
    and [dict].  A dict keeps its insertion order, which [for k in d]
    observes, so it is an association list; a key is looked up from the
    front (a Python dict has no duplicate keys). *)
Inductive json : Type :=
| JNull
| JBool (b : bool)
| JInt (z : Z)
| JFloat (f : float)
| JStr (s : string)
| JArr (items : list json)
| JObj (fields : list (string * json)).

(** The exceptions the program can meet.  The first four are raised by the
    language itself on untyped data; [RemoteError] stands for whatever
    [requests] or the Notion SDK raise ([HTTPError], [ConnectionError],
    [APIResponseError], [JSONDecodeError], ...), all subclasses of
    [Exception]; [Interrupt] stands for [KeyboardInterrupt] and
    [SystemExit], which are not, and which [except Exception] lets pass. *)
Inductive exn : Type :=
| KeyError (key : json)
| TypeError
| AttributeError
| IndexError
| RemoteError (detail : string)
| Interrupt (detail : string).

Definition is_Exception (e : exn) : bool :=
  match e with
  | Interrupt _ => false
  | _ => true
  end.

Inductive outcome (A : Type) : Type :=
| Returns (a : A)
| Raises (e : exn).
Arguments Returns {A} a.
Arguments Raises {A} e.

#[global] Instance outcome_ret : MRet outcome := fun A a => Returns a.
#[global] Instance outcome_bind : MBind outcome := fun A B k m =>
  match m with
  | Returns a => k a
  | Raises e => Raises e
  end.

Module Py.

Fixpoint assoc (k : string) (fields : list (string * json)) : option json :=
  match fields with
  | [] => None
  | (k', v) :: rest => if String.eqb k k' then Some v else assoc k rest
  end.

(** [bool(v)]: what [if v], [not v], [and], [or] and [all] test. *)
Definition truthy (v : json) : bool :=
  match v with
  | JNull => false
  | JBool b => b
  | JInt z => negb (z =? 0)
  | JFloat f => negb (PrimFloat.eqb f 0%float)
  | JStr s => negb (String.eqb s "")
  | JArr items => match items with [] => false | _ => true end
  | JObj fields => match fields with [] => false | _ => true end
  end.

(** [v == s] for a [str] s. *)
Definition eq_str (v : json) (s : string) : bool :=
  match v with
  | JStr t => String.eqb t s
  | _ => false
  end.

(** [v.get(k)]: only a dict has the method. *)
Definition get (v : json) (k : string) : outcome json :=
  match v with
  | JObj fields => Returns (default JNull (assoc k fields))
  | _ => Raises AttributeError
  end.

(** [v[k]] for a [str] k. *)
Definition getitem (v : json) (k : string) : outcome json :=
  match v with
  | JObj fields =>
      match assoc k fields with
      | Some x => Returns x
      | None => Raises (KeyError (JStr k))
      end
  | _ => Raises TypeError
  end.

(** [v[0]]. *)
Definition getitem0 (v : json) : outcome json :=
  match v with
  | JArr items =>
      match items with
      | x :: _ => Returns x
      | [] => Raises IndexError
      end
  | JStr s =>
      match s with
      | String c _ => Returns (JStr (String c EmptyString))
      | EmptyString => Raises IndexError
      end
  | JObj fields => Raises (KeyError (JInt 0))
  | _ => Raises TypeError
  end.

(** [len(v)]. *)
Definition len (v : json) : outcome Z :=
  match v with
  | JStr s => Returns (Z.of_nat (String.length s))
  | JArr items => Returns (Z.of_nat (length items))
  | JObj fields => Returns (Z.of_nat (length fields))
  | _ => Raises TypeError
  end.

Fixpoint chars (s : string) : list json :=
  match s with
  | EmptyString => []
  | String c rest => JStr (String c EmptyString) :: chars rest
  end.

(** The elements [for x in v] runs through. *)
Definition iter (v : json) : outcome (list json) :=
  match v with
  | JArr items => Returns items
  | JStr s => Returns (chars s)
  | JObj fields => Returns (map (fun kv => JStr (fst kv)) fields)
  | _ => Raises TypeError
  end.

End Py.

(** ** The outside world *)

(** One piece of an f-string: literal text (or a [str], or an [int] in
    decimal), the [str()] of a value, the [str()] of an exception. *)
Inductive fragment : Type :=
| Txt (s : string)
| Str (v : json)
| Exc (e : exn).

Inductive event : Type :=
| HttpGet (url : string) (headers params : list (string * json))
| NotionSearch (query : string)
| NotionRetrieve (page_id : json)
| NotionCreate (parent properties : json) (children : list json)
| Print (line : list fragment).

Definition is_network_call (ev : event) : bool :=
  match ev with
  | Print _ => false
  | _ => true
  end.

Definition is_print (ev : event) : bool :=
  match ev with
  | Print _ => true
  | _ => false
  end.

Definition is_create (ev : event) : bool :=
  match ev with
  | NotionCreate _ _ _ => true
  | _ => false
  end.

(** [datetime]: the fields the program reads. *)
Record datetime : Type := { year : Z; month : Z; day : Z }.

(** What the outside answers.  [http_get] is [requests.get] followed by
    [raise_for_status()] and [.json()]: the parsed body, or the exception
    one of the three raised. *)
Record World : Type := {
  environ : gmap string string;
  http_get : string -> list (string * json) -> outcome json;
  notion_search : string -> outcome json;
  notion_retrieve : json -> outcome json;
  notion_create : json -> json -> list json -> outcome json;
  now : datetime
}.

(** A computation: the calls made so far, and how it ended. *)
Definition M (A : Type) : Type := list event * outcome A.

#[global] Instance M_ret : MRet M := fun A a => ([], Returns a).
#[global] Instance M_bind : MBind M := fun A B k m =>
  match m with
  | (t, Returns a) => let '(t', r) := k a in (t ++ t', r)
  | (t, Raises e) => (t, Raises e)
  end.

Definition emit (ev : event) : M unit := ([ev], Returns tt).
Definition pure {A : Type} (o : outcome A) : M A := ([], o).
Definition call {A : Type} (ev : event) (o : outcome A) : M A := ([ev], o).
Definition print (line : list fragment) : M unit := emit (Print line).

(** [try: body except Exception as e: handler e]. *)
Definition try_except {A : Type} (body : M A) (handler : exn -> M A) : M A :=
  match body with
  | (t, Raises e) =>
      if is_Exception e then let '(t', r) := handler e in (t ++ t', r)
      else (t, Raises e)
  | done => done
  end.

Definition trace {A : Type} (m : M A) : list event := fst m.
Definition result {A : Type} (m : M A) : outcome A := snd m.
Definition console {A : Type} (m : M A) : list event := filter (fun ev => is_print ev = true) (trace m).
Definition network_calls {A : Type} (m : M A) : list event :=
  filter (fun ev => is_network_call ev = true) (trace m).

(** ** class TodoistClient *)

Module TodoistClient.

Record t : Type := {
  token : string;
  headers : list (string * json);
  base_url : string
}.

Definition __init__ (token : string) : t :=
  {| token := token;
     headers := [("Authorization", JStr ("Bearer " +:+ token))];
     base_url := "https://api.todoist.com/rest/v2" |}.

Fixpoint get_project_id_loop (projects : list json) (project_name : string)
  : outcome json :=
  match projects with
  | [] => Returns JNull
  | project :: rest =>
      name ← Py.getitem project "name";
      if Py.eq_str name project_name then Py.getitem project "id"
      else get_project_id_loop rest project_name
  end.

Definition get_project_id (w : World) (self : t) (project_name : string) : M json :=
  let url := base_url self +:+ "/projects" in
  projects ← call (HttpGet url (headers self) []) (http_get w url []);
  pure (items ← Py.iter projects; get_project_id_loop items project_name).

Definition get_project_tasks (w : World) (self : t) (project_id : json) : M json :=
  let params := [("project_id", project_id)] in
  let url := base_url self +:+ "/tasks" in
  call (HttpGet url (headers self) params) (http_get w url params).

End TodoistClient.

(** ** class NotionClient *)

Module NotionClient.

(** [self.client = Client(auth=token)]: building the SDK client sends
    nothing. *)
Record t : Type := { auth : string }.

Definition __init__ (token : string) : t := {| auth := token |}.

(** One turn of the loop of [find_page_by_name]: [Some v] when the turn
    ends in [return v], [None] when the loop goes on. *)
Definition find_page_step (result : json) (name : string) : outcome (option json) :=
  object ← Py.get result "object";
  is_page ←
    (if Py.eq_str object "page"
     then properties ← Py.get result "properties"; mret (Py.truthy properties)
     else mret false);
  if is_page : bool then
    properties ← Py.getitem result "properties";
    by_title ← Py.get properties "title";
    title_prop ←
      (if Py.truthy by_title then mret by_title
       else properties ← Py.getitem result "properties"; Py.get properties "Name");
    has_title ←
      (if Py.truthy title_prop then
         title ← Py.get title_prop "title";
         if Py.truthy title then
           title ← Py.getitem title_prop "title";
           n ← Py.len title;
           mret (0 <? n)
         else mret false
       else mret false);
    if has_title : bool then
      title ← Py.getitem title_prop "title";
      run ← Py.getitem0 title;
      plain_text ← Py.getitem run "plain_text";
      if Py.eq_str plain_text name
      then id ← Py.getitem result "id"; mret (Some id)
      else mret None
    else mret None
  else mret None.

Fixpoint find_page_loop (results : list json) (name : string) : outcome (option json) :=
  match results with
  | [] => mret None
  | result :: rest =>
      returned ← find_page_step result name;
      match returned with
      | Some id => mret (Some id)
      | None => find_page_loop rest name
      end
  end.

Definition find_page_by_name (w : World) (self : t) (name : string) : M json :=
  returned ←
    try_except
      (response ← call (NotionSearch name) (notion_search w name);
       pure (results ← Py.getitem response "results";
             items ← Py.iter results;
             find_page_loop items name))
      (fun e => print [Txt "Error finding page "; Txt name; Txt ": "; Exc e];; mret None);
  mret (default JNull returned).

Definition rich_text (content : json) : json :=
  JArr [JObj [("type", JStr "text"); ("text", JObj [("content", content)])]].

Definition heading_2 : json :=
  JObj [("object", JStr "block");
        ("type", JStr "heading_2");
        ("heading_2", JObj [("rich_text", rich_text (JStr "Reflection Tasks"))])].

Definition bulleted_list_item (content : json) : json :=
  JObj [("object", JStr "block");
        ("type", JStr "bulleted_list_item");
        ("bulleted_list_item", JObj [("rich_text", rich_text content)])].

Definition paragraph : json :=
  JObj [("object", JStr "block");
        ("type", JStr "paragraph");
        ("paragraph",
         JObj [("rich_text", rich_text (JStr "No reflection tasks found for this week."))])].

(** [for task in tasks: content_blocks.append(...)]. *)
Fixpoint append_tasks (content_blocks : list json) (tasks : list json)
  : outcome (list json) :=
  match tasks with
  | [] => mret content_blocks
  | task :: rest =>
      content ← Py.getitem task "content";
      append_tasks (content_blocks ++ [bulleted_list_item content]) rest
  end.

Definition build_content_blocks (tasks : json) : outcome (list json) :=
  let content_blocks := [] in
  if Py.truthy tasks then
    let content_blocks := content_blocks ++ [heading_2] in
    items ← Py.iter tasks;
    append_tasks content_blocks items
  else
    mret (content_blocks ++ [paragraph]).

Definition create_reflections_child_page
    (w : World) (self : t) (parent_page_id : json) (title : string) (tasks : json)
  : M json :=
  content_blocks ← pure (build_content_blocks tasks);
  let parent := JObj [("page_id", parent_page_id)] in
  let properties :=
    JObj [("title", JArr [JObj [("text", JObj [("content", JStr title)])]])] in
  page ← call (NotionCreate parent properties content_blocks)
              (notion_create w parent properties content_blocks);
  pure (Py.getitem page "id").

End NotionClient.

(** ** get_week_title and main *)

(** [strftime("%b")] in the C locale. *)
Definition month_abbr (m : Z) : string :=
  nth (Z.to_nat (m - 1))
      ["Jan"; "Feb"; "Mar"; "Apr"; "May"; "Jun";
       "Jul"; "Aug"; "Sep"; "Oct"; "Nov"; "Dec"] "".

(** [strftime("%d")]: the day of the month, zero-padded to two digits. *)
Definition day_padded (d : Z) : string :=
  if d <? 10 then "0" +:+ pretty d else pretty d.

(** [date.strftime("%b %d")]. *)
Definition strftime_b_d (date : datetime) : string :=
  month_abbr (month date) +:+ " " +:+ day_padded (day date).

Definition replace_day (date : datetime) (d : Z) : datetime :=
  {| year := year date; month := month date; day := d |}.

Definition get_week_title (date : datetime) : string :=
  let first_day := replace_day date 1 in
  let days_passed := day date - 1 in
  let week_number := days_passed `div` 7 + 1 in
  let month_day := strftime_b_d date in
  month_day +:+ " Week " +:+ pretty week_number.

(** [os.getenv]. *)
Definition getenv (w : World) (key : string) : option string := environ w !! key.

(** Truth value of what [os.getenv] returns: [None] and [""] are false. *)
Definition env_truthy (v : option string) : bool :=
  match v with
  | Some s => negb (String.eqb s "")
  | None => false
  end.

Definition fallback_journal_page_id : json := JStr "22a44c06-f763-809c-8fa7-cf92cb21f61e".

Definition main (w : World) : M unit :=
  let todoist_token := getenv w "TODOIST_TOKEN" in
  let notion_token := getenv w "NOTION_TOKEN" in
  if negb (forallb env_truthy [todoist_token; notion_token]) then
    print [Txt "Missing required environment variables: TODOIST_TOKEN, NOTION_TOKEN"]
  else
    (* both are set here, [default] never falls back *)
    let todoist := TodoistClient.__init__ (default "" todoist_token) in
    let notion := NotionClient.__init__ (default "" notion_token) in
    project_id ← TodoistClient.get_project_id w todoist "Reflections";
    if negb (Py.truthy project_id) then
      print [Txt "Reflections project not found in Todoist"]
    else
      print [Txt "Found Reflections project with ID: "; Str project_id];;
      tasks ← TodoistClient.get_project_tasks w todoist project_id;
      n ← pure (Py.len tasks);
      print [Txt "Found "; Txt (pretty n); Txt " tasks in Reflections project"];;
      found ← NotionClient.find_page_by_name w notion "Journal";
      let journal_page_id :=
        if negb (Py.truthy found) then fallback_journal_page_id else found in
      print [Txt "Found Journal page"];;
      accessible ←
        try_except
          (call (NotionRetrieve journal_page_id) (notion_retrieve w journal_page_id);;
           mret true)
          (fun e => print [Txt "Cannot access Journal page: "; Exc e];; mret false);
      if accessible : bool then
        let today := now w in
        let week_title := "Reflections " +:+ get_week_title today in
        print [Txt "Creating page with title: "; Txt week_title];;
        try_except
          (page_id ← NotionClient.create_reflections_child_page
                       w notion journal_page_id week_title tasks;
           print [Txt "Successfully created page with ID: "; Str page_id];;
           n ← pure (Py.len tasks);
           print [Txt "Page contains "; Txt (pretty n); Txt " reflection tasks"])
          (fun e => print [Txt "Error creating page: "; Exc e])
      else
        mret tt.

(** ** The orchestrator, stage by stage

    [main] is one function; its tail from each stage on is named here so
    that a run can be followed stage by stage ([main_stages] below shows
    that these are the parts of [main], unchanged). *)

Definition main_from_create
    (w : World) (notion : NotionClient.t) (journal_page_id tasks : json) : M unit :=
  let today := now w in
  let week_title := "Reflections " +:+ get_week_title today in
  print [Txt "Creating page with title: "; Txt week_title];;
  try_except
    (page_id ← NotionClient.create_reflections_child_page
                 w notion journal_page_id week_title tasks;
     print [Txt "Successfully created page with ID: "; Str page_id];;
     n ← pure (Py.len tasks);
     print [Txt "Page contains "; Txt (pretty n); Txt " reflection tasks"])
    (fun e => print [Txt "Error creating page: "; Exc e]).

Definition main_from_access
    (w : World) (notion : NotionClient.t) (journal_page_id tasks : json) : M unit :=
  accessible ←
    try_except
      (call (NotionRetrieve journal_page_id) (notion_retrieve w journal_page_id);;
       mret true)
      (fun e => print [Txt "Cannot access Journal page: "; Exc e];; mret false);
  if accessible : bool then main_from_create w notion journal_page_id tasks
  else mret tt.

Definition main_from_search (w : World) (notion : NotionClient.t) (tasks : json) : M unit :=
  found ← NotionClient.find_page_by_name w notion "Journal";
  let journal_page_id :=
    if negb (Py.truthy found) then fallback_journal_page_id else found in
  print [Txt "Found Journal page"];;
  main_from_access w notion journal_page_id tasks.

Definition main_from_project (w : World) (todoist : TodoistClient.t) (notion : NotionClient.t)
  : M unit :=
  project_id ← TodoistClient.get_project_id w todoist "Reflections";
  if negb (Py.truthy project_id) then
    print [Txt "Reflections project not found in Todoist"]
  else
    print [Txt "Found Reflections project with ID: "; Str project_id];;
    tasks ← TodoistClient.get_project_tasks w todoist project_id;
    n ← pure (Py.len tasks);
    print [Txt "Found "; Txt (pretty n); Txt " tasks in Reflections project"];;
    main_from_search w notion tasks.

(** ** Vocabulary of the properties *)

Definition missing_variables : event :=
  Print [Txt "Missing required environment variables: TODOIST_TOKEN, NOTION_TOKEN"].

Definition projects_url : string := "https://api.todoist.com/rest/v2/projects".
Definition tasks_url : string := "https://api.todoist.com/rest/v2/tasks".

(** The clients [main] builds once both variables are set. *)
Definition todoist_of (w : World) : TodoistClient.t :=
  TodoistClient.__init__ (default "" (getenv w "TODOIST_TOKEN")).
Definition notion_of (w : World) : NotionClient.t :=
  NotionClient.__init__ (default "" (getenv w "NOTION_TOKEN")).

(** A Project of the data model: a mapping with an [id] and a [name]. *)
Definition is_project (p : json) : bool :=
  match Py.getitem p "id", Py.getitem p "name" with
  | Returns _, Returns _ => true
  | _, _ => false
  end.

Definition name_is (project : json) (name : string) : Prop :=
  Py.getitem project "name" = Returns (JStr name).

(** A Task of the data model carries a [content]. *)
Definition content_is (task content : json) : Prop :=
  Py.getitem task "content" = Returns content.

Definition same_content (task1 task2 : json) : Prop :=
  Py.getitem task1 "content" = Py.getitem task2 "content".

(** The [type] tag of a content block. *)
Definition block_type (block : json) : option string :=
  match Py.getitem block "type" with
  | Returns (JStr type) => Some type
  | _ => None
  end.

(** The text a content block carries: [block[type]["rich_text"][0]["text"]["content"]]. *)
Definition block_text (block : json) : option json :=
  match block_type block with
  | Some type =>
      match (body ← Py.getitem block type;
             runs ← Py.getitem body "rich_text";
             run ← Py.getitem0 runs;
             text ← Py.getitem run "text";
             Py.getitem text "content") with
      | Returns content => Some content
      | Raises _ => None
      end
  | None => None
  end.

(** The [properties] argument [create_reflections_child_page] builds for a title. *)
Definition title_properties (title : string) : json :=
  JObj [("title", JArr [JObj [("text", JObj [("content", JStr title)])]])].

(** The decimal digit [n] as a one-character string. *)
Definition digit (n : Z) : string :=
  String (ascii_of_nat (48 + Z.to_nat n)) EmptyString.

(** [result] is a page with the non-empty mapping [props] as its properties. *)
Definition page_with_properties (result : json) (props : list (string * json)) : Prop :=
  exists fields : list (string * json),
    result = JObj fields /\
    Py.assoc "object" fields = Some (JStr "page") /\
    Py.assoc "properties" fields = Some (JObj props) /\
    props <> [].

(** [prop] has a non-empty title array whose first run reads [name]. *)
Definition titled (prop : json) (name : string) : Prop :=
  exists (pfields : list (string * json)) (run : json) (rest : list json),
    prop = JObj pfields /\
    Py.assoc "title" pfields = Some (JArr (run :: rest)) /\
    Py.getitem run "plain_text" = Returns (JStr name).

(** The property [props.get("title") or props.get("Name")] evaluates to. *)
Definition title_or_Name (props : list (string * json)) : json :=
  let by_title := default JNull (Py.assoc "title" props) in
  if Py.truthy by_title then by_title else default JNull (Py.assoc "Name" props).

(** The results [find_page_by_name] accepts. *)
Definition page_matches (result : json) (name : string) : Prop :=
  exists props : list (string * json),
    page_with_properties result props /\ titled (title_or_Name props) name.

(** The results the specification describes: a page one of whose ["title"]
    and ["Name"] properties has a non-empty title array whose first run
    reads [name]. *)
Definition spec_page_matches (result : json) (name : string) : Prop :=
  exists (props : list (string * json)) (prop : json),
    page_with_properties result props /\
    (Py.assoc "title" props = Some prop \/ Py.assoc "Name" props = Some prop) /\
    titled prop name.

(** Results that are not candidates, in the four ways the filter tests. *)
Inductive not_a_candidate : json -> Prop :=
| not_a_page (fields : list (string * json)) :
    Py.assoc "object" fields <> Some (JStr "page") ->
    not_a_candidate (JObj fields)
| no_properties (fields : list (string * json)) :
    Py.assoc "properties" fields = None ->
    not_a_candidate (JObj fields)
| no_title_property (fields props : list (string * json)) :
    Py.assoc "properties" fields = Some (JObj props) ->
    Py.assoc "title" props = None ->
    Py.assoc "Name" props = None ->
    not_a_candidate (JObj fields)
| empty_title (fields props pfields : list (string * json)) :
    Py.assoc "properties" fields = Some (JObj props) ->
    title_or_Name props = JObj pfields ->
    Py.assoc "title" pfields = Some (JArr []) ->
    not_a_candidate (JObj fields).

(** The run got as far as the search for the Journal page: both variables
    are set, the Reflections project resolved to [project_id] and its tasks
    were fetched and counted. *)
Definition reaches_search (w : World) (project_id tasks : json) : Prop :=
  forallb env_truthy [getenv w "TODOIST_TOKEN"; getenv w "NOTION_TOKEN"] = true /\
  result (TodoistClient.get_project_id w (todoist_of w) "Reflections") = Returns project_id /\
  Py.truthy project_id = true /\
  http_get w tasks_url [("project_id", project_id)] = Returns tasks /\
  exists n : Z, Py.len tasks = Returns n.

(** What has been called and printed when the search starts. *)
Definition events_before_search (w : World) (project_id tasks : json) : list event :=
  [HttpGet projects_url (TodoistClient.headers (todoist_of w)) [];
   Print [Txt "Found Reflections project with ID: "; Str project_id];
   HttpGet tasks_url (TodoistClient.headers (todoist_of w)) [("project_id", project_id)];
   Print [Txt "Found ";
          Txt (match Py.len tasks with Returns n => pretty n | Raises _ => "" end);
          Txt " tasks in Reflections project"]].

(** A result on which every access of the filter is defined: a mapping with
    an [id] whose properties, when present, are a mapping, and whose title
    property, when present, is a mapping whose title, when present, is an
    array the first run of which has a [plain_text]. *)
Definition well_formed_title_prop (prop : json) : bool :=
  match prop with
  | JNull => true
  | JObj pfields =>
      match Py.assoc "title" pfields with
      | None => true
      | Some (JArr []) => true
      | Some (JArr (run :: _)) =>
          match Py.getitem run "plain_text" with
          | Returns _ => true
          | Raises _ => false
          end
      | Some _ => false
      end
  | _ => false
  end.

Definition well_formed_result (result : json) : bool :=
  match result with
  | JObj fields =>
      match Py.assoc "id" fields, Py.assoc "properties" fields with
      | Some _, None => true
      | Some _, Some (JObj props) => well_formed_title_prop (title_or_Name props)
      | _, _ => false
      end
  | _ => false
  end.

Definition day_and_week_agree (d : Z) : bool :=
  String.eqb
    (day_padded d +:+ " Week " +:+ pretty ((d - 1) `div` 7 + 1))
    (digit (d `div` 10) +:+ digit (d `mod` 10) +:+ " Week " +:+ digit ((d - 1) `div` 7 + 1)).

(** A computation that raises only what [except Exception] catches. *)
Definition catchable {A : Type} (o : outcome A) : Prop :=
  forall e : exn, o = Raises e -> is_Exception e = true.

(** The line [find_page_by_name] prints when it catches [e]. *)
Definition error_finding_page (name : string) (e : exn) : event :=
  Print [Txt "Error finding page "; Txt name; Txt ": "; Exc e].

(** The filter of [find_page_by_name] applied to a search response. *)
Definition filter_response (response : json) (name : string) : outcome (option json) :=
  results ← Py.getitem response "results";
  items ← Py.iter results;
  NotionClient.find_page_loop items name.

Definition is_retrieve (ev : event) : bool :=
  match ev with
  | NotionRetrieve _ => true
  | _ => false
  end.

(** The lines [main] prints around the access check and the creation. *)
Definition found_journal_page : event := Print [Txt "Found Journal page"].
Definition cannot_access (e : exn) : event :=
  Print [Txt "Cannot access Journal page: "; Exc e].
Definition error_creating (e : exn) : event :=
  Print [Txt "Error creating page: "; Exc e].
Definition creating_page (title : string) : event :=
  Print [Txt "Creating page with title: "; Txt title].
Definition created_page (page_id : json) : event :=
  Print [Txt "Successfully created page with ID: "; Str page_id].
Definition page_contains (n : Z) : event :=
  Print [Txt "Page contains "; Txt (pretty n); Txt " reflection tasks"].

(** The title [main] gives the page on the day [today]. *)
Definition week_title (today : datetime) : string :=
  "Reflections " +:+ get_week_title today.

(** The page-creation call for a parent, a title and children. *)
Definition create_call (parent_page_id : json) (title : string) (children : list json)
  : event :=
  NotionCreate (JObj [("page_id", parent_page_id)]) (title_properties title) children.

(** The page id [main] goes on with after the search returned [found]. *)
Definition journal_page_id_of (found : json) : json :=
  if negb (Py.truthy found) then fallback_journal_page_id else found.

(** An event that is neither the access check nor the page creation. *)
Definition before_access (ev : event) : Prop :=
  is_create ev = false /\ is_retrieve ev = false.

(** ** Sample data *)

Definition project (id name : string) : json :=
  JObj [("id", JStr id); ("name", JStr name)].

Definition task (id content : string) : json :=
  JObj [("id", JStr id); ("content", JStr content)].

Definition title_property (text : string) : json :=
  JObj [("id", JStr "title"); ("type", JStr "title");
        ("title", JArr [JObj [("type", JStr "text"); ("plain_text", JStr text)]])].

(** A page whose title is held by the property called [key]. *)
Definition page (id key text : string) : json :=
  JObj [("object", JStr "page"); ("id", JStr id);
        ("properties", JObj [(key, title_property text)])].

(** A database row titled [text] under ["Name"], with a text column that
    happens to be called ["title"]. *)
Definition page_with_title_column (id text : string) : json :=
  JObj [("object", JStr "page"); ("id", JStr id);
        ("properties",
         JObj [("title", JObj [("id", JStr "abc"); ("type", JStr "rich_text");
                               ("rich_text", JArr [])]);
               ("Name", title_property text)])].

Definition database (id : string) : json :=
  JObj [("object", JStr "database"); ("id", JStr id)].

Definition search_response (results : list json) : json :=
  JObj [("object", JStr "list"); ("results", JArr results)].

Definition sample_projects : list json :=
  [project "P0" "Inbox"; project "P1" "Reflections"; project "P2" "Reflections"].

Definition sample_tasks : list json :=
  [task "T1" "Reflect on sleep"; task "T2" "Plan the week"].

Definition sample_environ : gmap string string :=
  <["TODOIST_TOKEN" := "todoist-secret"]> (<["NOTION_TOKEN" := "notion-secret"]> ∅).

(** A world in which every call succeeds; the search answers [results]. *)
Definition world_with (results : outcome json) (retrieve create : outcome json) : World :=
  {| environ := sample_environ;
     http_get := fun url params =>
       if String.eqb url projects_url then Returns (JArr sample_projects)
       else Returns (JArr sample_tasks);
     notion_search := fun query => results;
     notion_retrieve := fun page_id => retrieve;
     notion_create := fun parent properties children => create;
     now := {| year := 2025; month := 11; day := 5 |} |}.

Definition some_page : outcome json := Returns (JObj [("id", JStr "some-page")]).
Definition new_page : outcome json := Returns (JObj [("id", JStr "NEW")]).

Definition world_no_match : World :=
  world_with (Returns (search_response [database "D1"; page "X" "title" "Diary"]))
             some_page new_page.

Definition world_found_at_fallback : World :=
  world_with (Returns (search_response
                         [page "22a44c06-f763-809c-8fa7-cf92cb21f61e" "title" "Journal"]))
             some_page new_page.

Definition world_search_fails : World :=
  world_with (Raises (RemoteError "search unavailable")) some_page new_page.

Definition world_search_and_access_fail : World :=
  world_with (Raises (RemoteError "search unavailable"))
             (Raises (RemoteError "object not found")) new_page.

Definition world_access_fails : World :=
  world_with (Returns (search_response [page "J1" "title" "Journal"]))
             (Raises (RemoteError "object not found")) new_page.

Definition world_create_fails : World :=
  world_with (Returns (search_response [page "J1" "title" "Journal"]))
             some_page (Raises (RemoteError "validation error")).

Definition world_title_column : World :=
  world_with (Returns (search_response
                         [page_with_title_column "A" "Journal"; page "B" "Name" "Journal"]))
             some_page new_page.

Definition world_two_journals : World :=
  world_with (Returns (search_response
                         [database "D1"; page "X" "title" "Diary";
                          page "J1" "Name" "Journal"; page "J2" "title" "Journal"]))
             some_page new_page.

Definition world_without (key : string) : World :=
  {| environ := delete key sample_environ;
     http_get := fun url params => Returns (JArr sample_projects);
     notion_search := fun query => Returns (search_response []);
     notion_retrieve := fun page_id => some_page;
     notion_create := fun parent properties children => new_page;
     now := {| year := 2025; month := 11; day := 5 |} |}.

Definition world_with_empty (key : string) : World :=
  {| environ := <[key := ""]> sample_environ;
     http_get := fun url params => Returns (JArr sample_projects);
     notion_search := fun query => Returns (search_response []);
     notion_retrieve := fun page_id => some_page;
     notion_create := fun parent properties children => new_page;
     now := {| year := 2025; month := 11; day := 5 |} |}.

(** The sample tasks under other ids and with a field more. *)
Definition sample_tasks_renumbered : list json :=
  [JObj [("id", JStr "T7"); ("content", JStr "Reflect on sleep"); ("priority", JInt 4)];
   JObj [("content", JStr "Plan the week"); ("id", JStr "T8")]].

Definition sample_contents : list json :=
  [JStr "Reflect on sleep"; JStr "Plan the week"].

Definition sample_children : list json :=
  [NotionClient.heading_2;
   NotionClient.bulleted_list_item (JStr "Reflect on sleep");
   NotionClient.bulleted_list_item (JStr "Plan the week")].

(** ** Vocabulary of the whole run *)

Definition projects_call (w : World) : event :=
  HttpGet projects_url (TodoistClient.headers (todoist_of w)) [].

Definition tasks_call (w : World) (project_id : json) : event :=
  HttpGet tasks_url (TodoistClient.headers (todoist_of w)) [("project_id", project_id)].

Definition found_project (project_id : json) : event :=
  Print [Txt "Found Reflections project with ID: "; Str project_id].

Definition project_not_found : event :=
  Print [Txt "Reflections project not found in Todoist"].

(** Both variables are set and not empty. *)
Definition credentials_set (w : World) : Prop :=
  forallb env_truthy [getenv w "TODOIST_TOKEN"; getenv w "NOTION_TOKEN"] = true.

(** The five network calls of a complete run, in the order [main] makes
    them. *)
Definition pipeline (w : World) (project_id journal_page_id : json) (children : list json)
  : list event :=
  [projects_call w;
   tasks_call w project_id;
   NotionSearch "Journal";
   NotionRetrieve journal_page_id;
   create_call journal_page_id (week_title (now w)) children].

(** What [main] prints, and how it ends, once the page-creation call has
    answered [created]. *)
Definition after_create (created : outcome json) (tasks : json) : M unit :=
  match created with
  | Raises e => if is_Exception e then ([error_creating e], Returns tt) else ([], Raises e)
  | Returns page =>
      match Py.getitem page "id" with
      | Raises e => ([error_creating e], Returns tt)
      | Returns page_id =>
          match Py.len tasks with
          | Returns n => ([created_page page_id; page_contains n], Returns tt)
          | Raises e => ([created_page page_id; error_creating e], Returns tt)
          end
      end
  end.

(** The number of bulleted items among the blocks of a page. *)
Definition bulleted_count (children : list json) : nat :=
  length (filter (fun block => block_type block = Some "bulleted_list_item") children).

(** Month and day of a calendar date. *)
Definition month_and_day_in_range (date : datetime) : Prop :=
  1 <= month date <= 12 /\ 1 <= day date <= 31.

Definition all_month_days : list (Z * Z) :=
  m ← seqZ 1 12; d ← seqZ 1 31; [(m, d)].

Definition title_of_month_day (md : Z * Z) : string :=
  get_week_title {| year := 2000; month := fst md; day := snd md |}.

(** Two month-day pairs with the same week title are the same pair. *)
Definition titles_differ (md1 md2 : Z * Z) : bool :=
  implb (String.eqb (title_of_month_day md1) (title_of_month_day md2))
        ((fst md1 =? fst md2) && (snd md1 =? snd md2)).

(** ** More sample data *)

(** A world with both variables set, answering each call as given. *)
Definition world_answering
    (projects tasks search retrieve create : outcome json) : World :=
  {| environ := sample_environ;
     http_get := fun url params =>
       if String.eqb url projects_url then projects else tasks;
     notion_search := fun query => search;
     notion_retrieve := fun page_id => retrieve;
     notion_create := fun parent properties children => create;
     now := {| year := 2025; month := 11; day := 5 |} |}.

Definition project_without_name : json := JObj [("id", JStr "P9")].
Definition project_without_id : json := JObj [("name", JStr "Reflections")].
Definition task_without_content : json := JObj [("id", JStr "T9")].

Definition page_without_id (key text : string) : json :=
  JObj [("object", JStr "page"); ("properties", JObj [(key, title_property text)])].

Definition world_project_without_name : World :=
  world_answering
    (Returns (JArr [project "P0" "Inbox"; project_without_name; project "P1" "Reflections"]))
    (Returns (JArr sample_tasks)) (Returns (search_response [])) some_page new_page.

Definition world_project_without_id : World :=
  world_answering
    (Returns (JArr [project "P0" "Inbox"; project_without_id; project "P1" "Reflections"]))
    (Returns (JArr sample_tasks)) (Returns (search_response [])) some_page new_page.

Definition world_no_reflections : World :=
  world_answering
    (Returns (JArr [project "P0" "Inbox"; project "P3" "reflections"]))
    (Returns (JArr sample_tasks)) (Returns (search_response [])) some_page new_page.

Definition world_todoist_down : World :=
  world_answering (Raises (RemoteError "503 Server Error"))
                  (Returns (JArr sample_tasks)) (Returns (search_response []))
                  some_page new_page.

Definition world_search_interrupted : World :=
  world_with (Raises (Interrupt "KeyboardInterrupt")) some_page new_page.

Definition world_malformed_result : World :=
  world_with (Returns (search_response
                         [database "D1"; JStr "oops"; page "J1" "title" "Journal"]))
             some_page new_page.

Definition world_match_without_id : World :=
  world_with (Returns (search_response
                         [database "D1"; page_without_id "title" "Journal";
                          page "J2" "title" "Journal"]))
             some_page new_page.

Definition world_created_without_id : World :=
  world_with (Returns (search_response [page "J1" "title" "Journal"]))
             some_page (Returns (JObj [("object", JStr "page")])).

Definition world_journal_found : World :=
  world_with (Returns (search_response [page "J1" "title" "Journal"]))
             some_page new_page.


(** * Properties *)

(** ** Python primitives *)

Lemma eq_str_true (v : json) (s : string) : Py.eq_str v s = true <-> v = JStr s.
Proof.
  destruct v; simpl; try (split; [discriminate | congruence]).
  rewrite String.eqb_eq. split; congruence.
Qed.

(** ** TodoistClient.get_project_id *)

Section GetProjectId.
Import TodoistClient.

Lemma get_project_id_loop_skip (p : json) (rest : list json) (name : string) :
  is_project p = true -> ~ name_is p name ->
  get_project_id_loop (p :: rest) name = get_project_id_loop rest name.
Proof.
  unfold is_project, name_is. intros Hp Hn. simpl.
  destruct (Py.getitem p "id"); [|discriminate].
  destruct (Py.getitem p "name") as [nm|]; [|discriminate]. simpl.
  destruct (Py.eq_str nm name) eqn:E; [|reflexivity].
  apply eq_str_true in E. congruence.
Qed.

Lemma get_project_id_loop_hit (p : json) (rest : list json) (name : string) :
  name_is p name ->
  get_project_id_loop (p :: rest) name = Py.getitem p "id".
Proof.
  unfold name_is. intros Hn. simpl. rewrite Hn. simpl.
  now rewrite String.eqb_refl.
Qed.

Lemma get_project_id_loop_first (projects : list json) (name : string) :
  Forall (fun p => is_project p = true) projects ->
  forall (i : nat) (p : json),
    projects !! i = Some p -> name_is p name ->
    (forall (j : nat) (q : json),
        (j < i)%nat -> projects !! j = Some q -> ~ name_is q name) ->
    get_project_id_loop projects name = Py.getitem p "id".
Proof.
  induction 1 as [|q rest Hq Hrest IH]; intros i p Hi Hp Hbefore.
  - discriminate.
  - destruct i as [|i].
    + injection Hi as ->. now apply get_project_id_loop_hit.
    + rewrite get_project_id_loop_skip; [|assumption|].
      * apply (IH i p); [assumption|assumption|].
        intros j r Hj Hr. apply (Hbefore (S j) r); [lia|assumption].
      * apply (Hbefore 0%nat q); [lia|reflexivity].
Qed.

Lemma get_project_id_loop_none (projects : list json) (name : string) :
  Forall (fun p => is_project p = true) projects ->
  (forall p : json, p ∈ projects -> ~ name_is p name) ->
  get_project_id_loop projects name = Returns JNull.
Proof.
  induction 1 as [|q rest Hq Hrest IH]; intros Hno.
  - reflexivity.
  - rewrite get_project_id_loop_skip; [|assumption|].
    + apply IH. intros p Hp. apply Hno. now right.
    + apply Hno. now left.
Qed.

Lemma get_project_id_trace (w : World) (self : t) (name : string) :
  trace (get_project_id w self name)
  = [HttpGet (base_url self +:+ "/projects") (headers self) []].
Proof.
  unfold get_project_id, trace, call, pure.
  destruct (http_get w _ []) as [projects|e]; [|reflexivity].
  simpl. reflexivity.
Qed.

(** C5. Given the projects the service lists (each a mapping with an id
    and a name), [get_project_id] sends the one request for the list and
    returns the id of the first project whose name is exactly the name
    asked for; when no project has exactly that name it returns [None]. *)
Theorem get_project_id_first_exact_match
    (w : World) (self : TodoistClient.t) (projects : list json) (name : string) :
  http_get w (base_url self +:+ "/projects") [] = Returns (JArr projects) ->
  Forall (fun p => is_project p = true) projects ->
  (forall (i : nat) (p : json),
      projects !! i = Some p -> name_is p name ->
      (forall (j : nat) (q : json),
          (j < i)%nat -> projects !! j = Some q -> ~ name_is q name) ->
      exists id : json,
        Py.getitem p "id" = Returns id /\
        result (get_project_id w self name) = Returns id)
  /\ ((forall p : json, p ∈ projects -> ~ name_is p name) ->
      result (get_project_id w self name) = Returns JNull).
Proof.
  intros Hget Hall.
  assert (Hres : result (get_project_id w self name)
                 = get_project_id_loop projects name).
  { unfold get_project_id. rewrite Hget. reflexivity. }
  rewrite Hres. split.
  - intros i p Hi Hp Hbefore.
    rewrite (get_project_id_loop_first projects name Hall i p Hi Hp Hbefore).
    assert (Hproj : is_project p = true).
    { rewrite Forall_forall in Hall. apply Hall. eapply list_elem_of_lookup_2, Hi. }
    unfold is_project in Hproj.
    destruct (Py.getitem p "id") as [id|]; [|discriminate].
    now exists id.
  - now apply get_project_id_loop_none.
Qed.

End GetProjectId.

(** ** NotionClient.create_reflections_child_page *)

Section ContentBlocks.
Import NotionClient.

Lemma append_tasks_map (tasks contents : list json) :
  Forall2 content_is tasks contents ->
  forall acc : list json,
    append_tasks acc tasks = Returns (acc ++ map bulleted_list_item contents).
Proof.
  induction 1 as [|task content tasks contents Hc _ IH]; intros acc; simpl.
  - now rewrite app_nil_r.
  - unfold content_is in Hc. rewrite Hc. simpl.
    rewrite IH, <- app_assoc. reflexivity.
Qed.

Lemma append_tasks_same_content (tasks1 tasks2 : list json) :
  Forall2 same_content tasks1 tasks2 ->
  forall acc : list json, append_tasks acc tasks1 = append_tasks acc tasks2.
Proof.
  induction 1 as [|t1 t2 tasks1 tasks2 Hc _ IH]; intros acc; simpl.
  - reflexivity.
  - unfold same_content in Hc. rewrite Hc.
    destruct (Py.getitem t2 "content") as [content|e]; simpl; [apply IH|reflexivity].
Qed.

Lemma build_content_blocks_tasks (tasks contents : list json) :
  Forall2 content_is tasks contents ->
  build_content_blocks (JArr tasks)
  = Returns (match tasks with
             | [] => [paragraph]
             | _ => heading_2 :: map bulleted_list_item contents
             end).
Proof.
  intros H. unfold build_content_blocks.
  destruct H as [|task content tasks contents Hc H]; [reflexivity|].
  change (Py.truthy (JArr (task :: tasks))) with true. cbv iota.
  change (Py.iter (JArr (task :: tasks))) with (Returns (task :: tasks)).
  change (append_tasks ([] ++ [heading_2]) (task :: tasks)
          = Returns ([heading_2] ++ map bulleted_list_item (content :: contents))).
  apply append_tasks_map. now constructor.
Qed.

(** C1. For a list of tasks, each carrying a content, the children passed
    to the page-creation call are: for a non-empty list, one heading
    block reading "Reflection Tasks" followed by one bulleted block per
    task, in the order of the tasks, each carrying its task's content
    (one block more than there are tasks); for the empty list, the single
    paragraph block reading "No reflection tasks found for this week.".
    The block types are those of one form only. *)
Theorem create_reflections_child_page_blocks
    (w : World) (self : NotionClient.t) (parent_page_id : json) (title : string)
    (tasks contents : list json) :
  Forall2 content_is tasks contents ->
  exists children : list json,
    build_content_blocks (JArr tasks) = Returns children /\
    trace (create_reflections_child_page w self parent_page_id title (JArr tasks))
    = [NotionCreate (JObj [("page_id", parent_page_id)]) (title_properties title) children] /\
    (tasks <> [] ->
     children = heading_2 :: map bulleted_list_item contents /\
     length children = S (length tasks) /\
     block_text heading_2 = Some (JStr "Reflection Tasks") /\
     map block_type children
     = Some "heading_2" :: replicate (length tasks) (Some "bulleted_list_item") /\
     map block_text (tail children) = map Some contents) /\
    (tasks = [] ->
     children = [paragraph] /\
     map block_type children = [Some "paragraph"] /\
     map block_text children = [Some (JStr "No reflection tasks found for this week.")]).
Proof.
  intros H.
  pose proof (build_content_blocks_tasks tasks contents H) as Hb.
  eexists. split; [exact Hb|]. split.
  - unfold create_reflections_child_page. rewrite Hb.
    unfold trace, pure, call, title_properties. simpl.
    destruct (notion_create w _ _ _); reflexivity.
  - split.
    + intros Hne. destruct tasks as [|task tasks]; [congruence|].
      pose proof (Forall2_length _ _ _ H) as Hlen.
      split; [reflexivity|]. split; [|split; [reflexivity|split]].
      * simpl. rewrite length_map. simpl in Hlen. lia.
      * rewrite Hlen. simpl. f_equal.
        clear. induction contents as [|c cs IH]; [reflexivity|].
        simpl. now rewrite IH.
      * simpl. clear. induction contents as [|c cs IH]; [reflexivity|].
        simpl. now rewrite IH.
    + intros ->. repeat split.
Qed.

(** C9. The blocks depend on the tasks through their content only: two
    task lists of the same length whose tasks agree, one by one, on
    [task["content"]] give the same blocks, and the same page-creation
    call with the same result, whatever their ids and other fields. *)
Theorem blocks_depend_on_content_only (tasks1 tasks2 : list json) :
  Forall2 same_content tasks1 tasks2 ->
  build_content_blocks (JArr tasks1) = build_content_blocks (JArr tasks2) /\
  forall (w : World) (self : NotionClient.t) (parent_page_id : json) (title : string),
    create_reflections_child_page w self parent_page_id title (JArr tasks1)
    = create_reflections_child_page w self parent_page_id title (JArr tasks2).
Proof.
  intros H.
  assert (Hb : build_content_blocks (JArr tasks1) = build_content_blocks (JArr tasks2)).
  { unfold build_content_blocks.
    destruct H as [|t1 t2 tasks1 tasks2 Hc H]; [reflexivity|].
    change (Py.truthy (JArr (t1 :: tasks1))) with true.
    change (Py.truthy (JArr (t2 :: tasks2))) with true. cbv iota.
    apply (append_tasks_same_content (t1 :: tasks1) (t2 :: tasks2)).
    now constructor. }
  split; [exact Hb|].
  intros w self parent_page_id title.
  unfold create_reflections_child_page. now rewrite Hb.
Qed.

End ContentBlocks.

(** ** get_week_title *)

Lemma string_app_assoc (s1 s2 s3 : string) :
  (s1 +:+ s2) +:+ s3 = s1 +:+ (s2 +:+ s3).
Proof.
  induction s1 as [|c s1 IH]; [reflexivity|].
  change (String c ((s1 +:+ s2) +:+ s3) = String c (s1 +:+ (s2 +:+ s3))).
  now rewrite IH.
Qed.

Lemma day_and_week_digits (d : Z) :
  1 <= d <= 31 ->
  day_padded d +:+ " Week " +:+ pretty ((d - 1) `div` 7 + 1)
  = digit (d `div` 10) +:+ digit (d `mod` 10) +:+ " Week " +:+ digit ((d - 1) `div` 7 + 1).
Proof.
  intros Hd. apply String.eqb_eq.
  assert (Hall : forallb day_and_week_agree (seqZ 1 31) = true) by (vm_compute; reflexivity).
  rewrite forallb_forall in Hall. apply (Hall d).
  apply list_elem_of_In, elem_of_seqZ. lia.
Qed.

(** ** NotionClient.find_page_by_name *)

Section FindPage.
Import NotionClient.

(** [props.get("title") or props.get("Name")], as it stands in the loop. *)
Ltac eval_title_or_Name props :=
  replace (if Py.truthy (default JNull (Py.assoc "title" props))
           then mret (default JNull (Py.assoc "title" props))
           else Returns (default JNull (Py.assoc "Name" props)))
    with (Returns (title_or_Name props))
    by (unfold title_or_Name;
        destruct (Py.truthy (default JNull (Py.assoc "title" props))); reflexivity).

Lemma find_page_step_Some_inv (r : json) (name : string) (v : json) :
  find_page_step r name = Returns (Some v) ->
  page_matches r name /\ Py.getitem r "id" = Returns v.
Proof.
  intros H. destruct r as [| | | | |items|fields]; try discriminate.
  unfold find_page_step in H. simpl in H.
  destruct (Py.eq_str (default JNull (Py.assoc "object" fields)) "page") eqn:Hobj;
    simpl in H; [|discriminate].
  destruct (Py.truthy (default JNull (Py.assoc "properties" fields))) eqn:Hprops;
    simpl in H; [|discriminate].
  destruct (Py.assoc "properties" fields) as [props|] eqn:Eprops; [|discriminate].
  simpl in H, Hprops.
  destruct props as [| | | | |?|props]; try discriminate. simpl in H.
  revert H. eval_title_or_Name props. intros H. simpl in H.
  destruct (Py.truthy (title_or_Name props)) eqn:Htp; simpl in H; [|discriminate].
  destruct (title_or_Name props) as [| | | | |?|pfields] eqn:Etp; try discriminate.
  simpl in H.
  destruct (Py.assoc "title" pfields) as [title|] eqn:Etitle; simpl in H; [|discriminate].
  destruct (Py.truthy title) eqn:Htitle; simpl in H; [|discriminate].
  destruct (Py.len title) as [n|] eqn:Hlen; simpl in H; [|discriminate].
  destruct (0 <? n) eqn:Hn; simpl in H; [|discriminate].
  destruct (Py.getitem0 title) as [run|] eqn:Hrun; simpl in H; [|discriminate].
  destruct (Py.getitem run "plain_text") as [text|] eqn:Htext; simpl in H; [|discriminate].
  destruct (Py.eq_str text name) eqn:Heq; simpl in H; [|discriminate].
  destruct (Py.assoc "id" fields) as [id|] eqn:Eid; simpl in H; [|discriminate].
  injection H as ->.
  apply eq_str_true in Heq. subst text.
  split; [|simpl; now rewrite Eid].
  exists props. split.
  - exists fields. repeat split; try assumption.
    + destruct (Py.assoc "object" fields) as [o|]; [|discriminate].
      apply eq_str_true in Hobj. simpl in Hobj. now subst o.
    + intros ->. discriminate.
  - rewrite Etp.
    destruct title as [| | | |s|[|run' rest]|tfields]; try discriminate.
    + (* a str: its first character has no fields *)
      destruct s; simpl in Hrun; [discriminate|]. injection Hrun as <-. discriminate.
    + simpl in Hrun. injection Hrun as ->.
      exists pfields, run, rest. repeat split; assumption.
Qed.

Lemma find_page_step_match (r : json) (name : string) :
  page_matches r name ->
  find_page_step r name = (id ← Py.getitem r "id"; mret (Some id)).
Proof.
  intros (props & (fields & -> & Hobj & Hprops & Hne)
                & (pfields & run & rest & Htp & Htitle & Hrun)).
  unfold find_page_step. simpl. rewrite Hobj, Hprops. simpl.
  destruct props as [|kv props]; [congruence|].
  change (Py.truthy (JObj (kv :: props))) with true. simpl.
  eval_title_or_Name (kv :: props). simpl.
  rewrite Htp.
  assert (Hpf : Py.truthy (JObj pfields) = true).
  { destruct pfields; [discriminate|reflexivity]. }
  rewrite Hpf. simpl. rewrite Htitle. simpl. rewrite Hrun. simpl.
  now rewrite String.eqb_refl.
Qed.

Lemma find_page_step_not_a_candidate (r : json) (name : string) :
  not_a_candidate r -> find_page_step r name = Returns None.
Proof.
  intros H. unfold find_page_step.
  destruct H as [fields Hobj|fields Hprops|fields props Hprops Ht Hn
                |fields props pfields Hprops Htp Htitle]; simpl.
  - destruct (Py.eq_str (default JNull (Py.assoc "object" fields)) "page") eqn:E;
      [|reflexivity].
    apply eq_str_true in E.
    destruct (Py.assoc "object" fields); simpl in E; congruence.
  - rewrite Hprops.
    destruct (Py.eq_str (default JNull (Py.assoc "object" fields)) "page"); reflexivity.
  - rewrite Hprops.
    destruct (Py.eq_str (default JNull (Py.assoc "object" fields)) "page");
      [|reflexivity].
    destruct props as [|kv props]; [reflexivity|].
    change (Py.truthy (default JNull (Some (JObj (kv :: props))))) with true. simpl.
    eval_title_or_Name (kv :: props).
    unfold title_or_Name. rewrite Ht, Hn. reflexivity.
  - rewrite Hprops.
    destruct (Py.eq_str (default JNull (Py.assoc "object" fields)) "page");
      [|reflexivity].
    destruct props as [|kv props]; [reflexivity|].
    change (Py.truthy (default JNull (Some (JObj (kv :: props))))) with true. simpl.
    eval_title_or_Name (kv :: props). rewrite Htp.
    assert (Hpf : Py.truthy (JObj pfields) = true).
    { destruct pfields; [discriminate|reflexivity]. }
    simpl. simpl in Hpf. rewrite Hpf, Htitle. reflexivity.
Qed.

Lemma find_page_step_well_formed (r : json) (name : string) :
  well_formed_result r = true ->
  exists returned : option json, find_page_step r name = Returns returned.
Proof.
  intros H. destruct r as [| | | | |?|fields]; try discriminate.
  unfold well_formed_result in H. unfold find_page_step. simpl.
  destruct (Py.assoc "id" fields) as [id|] eqn:Eid; [|discriminate].
  destruct (Py.eq_str (default JNull (Py.assoc "object" fields)) "page");
    [|now exists None].
  destruct (Py.assoc "properties" fields) as [props|] eqn:Eprops; [|now exists None].
  destruct props as [| | | | |?|props]; try discriminate.
  destruct props as [|kv props]; [now exists None|].
  change (Py.truthy (default JNull (Some (JObj (kv :: props))))) with true. simpl.
  eval_title_or_Name (kv :: props).
  destruct (title_or_Name (kv :: props)) as [| | | | |?|pfields]; try discriminate;
    [now exists None|].
  simpl in H. simpl.
  destruct pfields as [|pkv pfields]; [now exists None|].
  destruct (Py.assoc "title" (pkv :: pfields)) as [title|]; [|now exists None].
  destruct title as [| | | | |[|run rest]|?]; try discriminate; [now exists None|].
  simpl.
  destruct (Py.getitem run "plain_text") as [text|]; [|discriminate]. simpl.
  destruct (Py.eq_str text name); [now exists (Some id)|now exists None].
Qed.

Lemma find_page_step_skips (r : json) (name : string) :
  well_formed_result r = true -> ~ page_matches r name ->
  find_page_step r name = Returns None.
Proof.
  intros Hwf Hno.
  destruct (find_page_step_well_formed r name Hwf) as [[v|] H]; [|exact H].
  destruct (find_page_step_Some_inv r name v H) as [Hm _]. contradiction.
Qed.

Lemma find_page_loop_Some_inv (items : list json) (name : string) (v : json) :
  find_page_loop items name = Returns (Some v) ->
  exists (i : nat) (r : json),
    items !! i = Some r /\ page_matches r name /\ Py.getitem r "id" = Returns v /\
    forall (j : nat) (q : json),
      (j < i)%nat -> items !! j = Some q -> ~ page_matches q name.
Proof.
  induction items as [|r rest IH]; [discriminate|].
  simpl. destruct (find_page_step r name) as [[id|]|e] eqn:Hstep; simpl;
    [|intros H|discriminate].
  - intros [= ->]. destruct (find_page_step_Some_inv r name v Hstep) as [Hm Hid].
    exists 0%nat, r. repeat split; try assumption. intros j q Hj. lia.
  - destruct (IH H) as (i & r' & Hi & Hm & Hid & Hbefore).
    exists (S i), r'. repeat split; try assumption.
    intros [|j] q Hj Hq.
    + injection Hq as <-. intros Hm'.
      rewrite (find_page_step_match r name Hm') in Hstep.
      destruct (Py.getitem r "id"); discriminate.
    + apply (Hbefore j q); [lia|assumption].
Qed.

Lemma find_page_loop_first (items : list json) (name : string) :
  Forall (fun r => well_formed_result r = true) items ->
  forall (i : nat) (r : json),
    items !! i = Some r -> page_matches r name ->
    (forall (j : nat) (q : json),
        (j < i)%nat -> items !! j = Some q -> ~ page_matches q name) ->
    find_page_loop items name = (id ← Py.getitem r "id"; mret (Some id)).
Proof.
  induction 1 as [|q rest Hq Hrest IH]; intros i r Hi Hm Hbefore; [discriminate|].
  destruct i as [|i]; simpl.
  - injection Hi as ->. rewrite (find_page_step_match r name Hm).
    destruct (Py.getitem r "id"); reflexivity.
  - rewrite (find_page_step_skips q name Hq); [|apply (Hbefore 0%nat q); [lia|reflexivity]].
    simpl. apply (IH i r); [assumption|assumption|].
    intros j q' Hj Hq'. apply (Hbefore (S j) q'); [lia|assumption].
Qed.

End FindPage.

(** ** What the language raises is caught by [except Exception] *)

Section Catchable.

Lemma catchable_Returns {A : Type} (a : A) : catchable (Returns a).
Proof. intros e H. discriminate. Qed.

Lemma catchable_mret {A : Type} (a : A) : catchable (mret a).
Proof. apply catchable_Returns. Qed.

Lemma catchable_bind {A B : Type} (m : outcome A) (k : A -> outcome B) :
  catchable m -> (forall a : A, catchable (k a)) -> catchable (m ≫= k).
Proof.
  intros Hm Hk e. destruct m as [a|e']; simpl.
  - apply Hk.
  - intros [= ->]. now apply Hm.
Qed.

Lemma catchable_if {A : Type} (b : bool) (m1 m2 : outcome A) :
  catchable m1 -> catchable m2 -> catchable (if b then m1 else m2).
Proof. destruct b; auto. Qed.

Lemma catchable_get (v : json) (k : string) : catchable (Py.get v k).
Proof. intros e. destruct v; simpl; intros [= <-]; reflexivity. Qed.

Lemma catchable_getitem (v : json) (k : string) : catchable (Py.getitem v k).
Proof.
  intros e. destruct v; simpl; try (intros [= <-]; reflexivity).
  destruct (Py.assoc k fields); intros [= <-]; reflexivity.
Qed.

Lemma catchable_getitem0 (v : json) : catchable (Py.getitem0 v).
Proof.
  intros e. destruct v as [| | | |s|items|fields]; simpl; try (intros [= <-]; reflexivity).
  - destruct s; intros [= <-]; reflexivity.
  - destruct items; intros [= <-]; reflexivity.
Qed.

Lemma catchable_len (v : json) : catchable (Py.len v).
Proof. intros e. destruct v; simpl; intros [= <-]; reflexivity. Qed.

Lemma catchable_iter (v : json) : catchable (Py.iter v).
Proof. intros e. destruct v; simpl; intros [= <-]; reflexivity. Qed.

End Catchable.

Create HintDb catchable.
#[export] Hint Resolve catchable_Returns catchable_mret catchable_get catchable_getitem
  catchable_getitem0 catchable_len catchable_iter : catchable.
#[export] Hint Extern 2 (catchable (_ ≫= _)) =>
  apply catchable_bind; [|intros ?] : catchable.
#[export] Hint Extern 2 (catchable (if _ then _ else _)) =>
  apply catchable_if : catchable.

Section FindPageByName.
Import NotionClient.

Lemma catchable_find_page_step (r : json) (name : string) :
  catchable (find_page_step r name).
Proof. unfold find_page_step. auto 30 with catchable. Qed.

Lemma catchable_find_page_loop (items : list json) (name : string) :
  catchable (find_page_loop items name).
Proof.
  induction items as [|r rest IH]; simpl; [auto with catchable|].
  apply catchable_bind; [apply catchable_find_page_step|].
  intros [id|]; auto with catchable.
Qed.

Lemma catchable_filter_response (response : json) (name : string) :
  catchable (filter_response response name).
Proof.
  unfold filter_response.
  apply catchable_bind; [auto with catchable|intros results].
  apply catchable_bind; [auto with catchable|intros items].
  apply catchable_find_page_loop.
Qed.

(** The three ways [find_page_by_name] can go once the search answered,
    and the two when the search itself raised. *)
Lemma find_page_by_name_answered
    (w : World) (self : NotionClient.t) (name : string) (response : json) :
  notion_search w name = Returns response ->
  find_page_by_name w self name
  = match filter_response response name with
    | Returns returned => ([NotionSearch name], Returns (default JNull returned))
    | Raises e => ([NotionSearch name; error_finding_page name e], Returns JNull)
    end.
Proof.
  intros Hs. pose proof (catchable_filter_response response name) as Hc.
  unfold find_page_by_name, filter_response in *. rewrite Hs.
  unfold call, pure, try_except. simpl.
  destruct (Py.getitem response "results" ≫= _) as [returned|e]; simpl.
  - reflexivity.
  - rewrite (Hc e eq_refl). reflexivity.
Qed.

Lemma find_page_by_name_raised
    (w : World) (self : NotionClient.t) (name : string) (e : exn) :
  notion_search w name = Raises e ->
  find_page_by_name w self name
  = if is_Exception e
    then ([NotionSearch name; error_finding_page name e], Returns JNull)
    else ([NotionSearch name], Raises e).
Proof.
  intros Hs. unfold find_page_by_name. rewrite Hs.
  unfold call, pure, try_except. simpl.
  destruct (is_Exception e); reflexivity.
Qed.

Lemma chars_are_str (s : string) (r : json) :
  r ∈ Py.chars s -> exists c : string, r = JStr c.
Proof.
  induction s as [|c s IH]; simpl; intros H.
  - inversion H.
  - apply elem_of_cons in H as [->|H]; [eauto|auto].
Qed.

Lemma page_matches_is_obj (r : json) (name : string) :
  page_matches r name -> exists fields : list (string * json), r = JObj fields.
Proof. intros (props & (fields & -> & _) & _). eauto. Qed.

Lemma filter_response_Some_inv (response : json) (name : string) (v : json) :
  filter_response response name = Returns (Some v) ->
  exists (items : list json) (i : nat) (r : json),
    Py.getitem response "results" = Returns (JArr items) /\
    items !! i = Some r /\ page_matches r name /\ Py.getitem r "id" = Returns v /\
    forall (j : nat) (q : json),
      (j < i)%nat -> items !! j = Some q -> ~ page_matches q name.
Proof.
  unfold filter_response.
  destruct (Py.getitem response "results") as [results|] eqn:Hres; [|discriminate].
  simpl.
  destruct (Py.iter results) as [items|] eqn:Hiter; [|discriminate]. simpl.
  intros H.
  destruct (find_page_loop_Some_inv items name v H) as (i & r & Hi & Hm & Hid & Hb).
  assert (Hin : r ∈ items) by (eapply list_elem_of_lookup_2, Hi).
  destruct (page_matches_is_obj r name Hm) as [fields ->].
  destruct results as [| | | |s|items'|rfields]; try discriminate.
  - injection Hiter as <-.
    destruct (chars_are_str s _ Hin) as [c Hc]. discriminate.
  - injection Hiter as <-. exists items', i, (JObj fields). auto.
  - injection Hiter as <-.
    apply list_elem_of_fmap in Hin as (kv & Hkv & _). discriminate.
Qed.

End FindPageByName.

(** ** main, stage by stage *)

Section Stages.
Import NotionClient.

Lemma main_stages (w : World) :
  main w
  = if negb (forallb env_truthy [getenv w "TODOIST_TOKEN"; getenv w "NOTION_TOKEN"])
    then ([missing_variables], Returns tt)
    else main_from_project w (todoist_of w) (notion_of w).
Proof. reflexivity. Qed.

Lemma catchable_append_tasks (tasks acc : list json) : catchable (append_tasks acc tasks).
Proof.
  revert acc. induction tasks as [|task tasks IH]; intros acc; simpl.
  - auto with catchable.
  - apply catchable_bind; [auto with catchable|]. intros content. apply IH.
Qed.

Lemma catchable_build_content_blocks (tasks : json) :
  catchable (build_content_blocks tasks).
Proof.
  unfold build_content_blocks. apply catchable_if; [|auto with catchable].
  apply catchable_bind; [auto with catchable|]. intros items.
  apply catchable_append_tasks.
Qed.

Lemma main_from_create_cases
    (w : World) (notion : NotionClient.t) (journal_page_id tasks : json) :
  main_from_create w notion journal_page_id tasks
  = let title := week_title (now w) in
    match build_content_blocks tasks with
    | Raises e => ([creating_page title; error_creating e], Returns tt)
    | Returns children =>
        let create := create_call journal_page_id title children in
        match notion_create w (JObj [("page_id", journal_page_id)])
                            (title_properties title) children with
        | Raises e =>
            if is_Exception e
            then ([creating_page title; create; error_creating e], Returns tt)
            else ([creating_page title; create], Raises e)
        | Returns page =>
            match Py.getitem page "id" with
            | Raises e => ([creating_page title; create; error_creating e], Returns tt)
            | Returns page_id =>
                match Py.len tasks with
                | Returns n =>
                    ([creating_page title; create; created_page page_id; page_contains n],
                     Returns tt)
                | Raises e =>
                    ([creating_page title; create; created_page page_id; error_creating e],
                     Returns tt)
                end
            end
        end
    end.
Proof.
  unfold main_from_create, create_reflections_child_page, week_title.
  pose proof (catchable_build_content_blocks tasks) as Hb.
  destruct (build_content_blocks tasks) as [children|e]; simpl.
  - unfold title_properties.
    destruct (notion_create w _ _ children) as [page|e]; simpl.
    + pose proof (catchable_getitem page "id") as Hid.
      destruct (Py.getitem page "id") as [page_id|e]; simpl.
      * pose proof (catchable_len tasks) as Hlen.
        destruct (Py.len tasks) as [n|e]; simpl; [reflexivity|].
        now rewrite (Hlen e eq_refl).
      * now rewrite (Hid e eq_refl).
    + destruct (is_Exception e); reflexivity.
  - now rewrite (Hb e eq_refl).
Qed.

Lemma main_from_access_cases
    (w : World) (notion : NotionClient.t) (journal_page_id tasks : json) :
  main_from_access w notion journal_page_id tasks
  = match notion_retrieve w journal_page_id with
    | Returns _ =>
        (NotionRetrieve journal_page_id
           :: trace (main_from_create w notion journal_page_id tasks),
         result (main_from_create w notion journal_page_id tasks))
    | Raises e =>
        if is_Exception e
        then ([NotionRetrieve journal_page_id; cannot_access e], Returns tt)
        else ([NotionRetrieve journal_page_id], Raises e)
    end.
Proof.
  unfold main_from_access.
  destruct (notion_retrieve w journal_page_id) as [page|e]; simpl.
  - destruct (main_from_create w notion journal_page_id tasks). reflexivity.
  - destruct (is_Exception e); reflexivity.
Qed.

Lemma main_from_search_cases (w : World) (notion : NotionClient.t) (tasks : json) :
  main_from_search w notion tasks
  = match find_page_by_name w notion "Journal" with
    | (t, Returns found) =>
        (t ++ found_journal_page
           :: trace (main_from_access w notion (journal_page_id_of found) tasks),
         result (main_from_access w notion (journal_page_id_of found) tasks))
    | (t, Raises e) => (t, Raises e)
    end.
Proof.
  unfold main_from_search.
  destruct (find_page_by_name w notion "Journal") as [t [found|e]]; simpl; [|reflexivity].
  fold (journal_page_id_of found).
  destruct (main_from_access w notion (journal_page_id_of found) tasks). reflexivity.
Qed.

Lemma get_project_id_pair (w : World) (self : TodoistClient.t) (name : string) :
  TodoistClient.get_project_id w self name
  = ([HttpGet (TodoistClient.base_url self +:+ "/projects") (TodoistClient.headers self) []],
     result (TodoistClient.get_project_id w self name)).
Proof.
  rewrite <- (get_project_id_trace w self name).
  destruct (TodoistClient.get_project_id w self name). reflexivity.
Qed.

Lemma main_reaches_search (w : World) (project_id tasks : json) :
  reaches_search w project_id tasks ->
  main w
  = (events_before_search w project_id tasks
       ++ trace (main_from_search w (notion_of w) tasks),
     result (main_from_search w (notion_of w) tasks)).
Proof.
  intros (Henv & Hpid & Htruthy & Htasks & n & Hlen).
  rewrite main_stages, Henv. simpl negb. cbv iota.
  unfold main_from_project.
  rewrite get_project_id_pair, Hpid. simpl.
  rewrite Htruthy. simpl.
  unfold TodoistClient.get_project_tasks, call. simpl.
  change ("https://api.todoist.com/rest/v2" +:+ "/tasks") with tasks_url.
  rewrite Htasks. simpl. unfold events_before_search. rewrite Hlen. simpl.
  destruct (main_from_search w (notion_of w) tasks). reflexivity.
Qed.

End Stages.

(** ** find_page_by_name, specified *)

Section FindPageSpec.
Import NotionClient.

Lemma find_page_by_name_result_inv
    (w : World) (self : NotionClient.t) (name : string) (v : json) :
  result (find_page_by_name w self name) = Returns v -> v <> JNull ->
  exists response : json,
    notion_search w name = Returns response /\
    filter_response response name = Returns (Some v).
Proof.
  intros Hres Hv.
  destruct (notion_search w name) as [response|e] eqn:Hs.
  - exists response. split; [reflexivity|].
    rewrite (find_page_by_name_answered w self name response Hs) in Hres.
    destruct (filter_response response name) as [[id|]|e]; simpl in Hres.
    + now injection Hres as ->.
    + injection Hres as <-. congruence.
    + injection Hres as <-. congruence.
  - rewrite (find_page_by_name_raised w self name e Hs) in Hres.
    destruct (is_Exception e); simpl in Hres; [|discriminate].
    injection Hres as <-. congruence.
Qed.

Lemma title_column_is_spec_match :
  spec_page_matches (page_with_title_column "A" "Journal") "Journal".
Proof.
  eexists _, (title_property "Journal"). split; [|split].
  - eexists. split; [reflexivity|]. split; [reflexivity|].
    split; [reflexivity|discriminate].
  - right. reflexivity.
  - eexists _, _, _. split; [reflexivity|]. split; reflexivity.
Qed.

(** C6, as stated, fails.  Take a response whose first result is a
    database row titled "Journal" under ["Name"] that also has a text
    column called ["title"], and whose second result is a page titled
    "Journal".  The first result is a page with a non-empty properties
    mapping and a ["Name"] property whose title array is non-empty and
    starts with "Journal", yet [find_page_by_name] returns the id of the
    second: what it returns is not the first of the results the specification
    describes. *)
Lemma find_page_by_name_not_first_spec_match :
  let items := [page_with_title_column "A" "Journal"; page "B" "Name" "Journal"] in
  notion_search world_title_column "Journal" = Returns (search_response items) /\
  result (find_page_by_name world_title_column (notion_of world_title_column) "Journal")
  = Returns (JStr "B") /\
  ~ (forall v : json,
        result (find_page_by_name world_title_column (notion_of world_title_column)
                                  "Journal") = Returns v ->
        v <> JNull ->
        exists (i : nat) (r : json),
          items !! i = Some r /\ spec_page_matches r "Journal" /\
          Py.getitem r "id" = Returns v /\
          forall (j : nat) (q : json),
            (j < i)%nat -> items !! j = Some q -> ~ spec_page_matches q "Journal").
Proof.
  split; [reflexivity|]. split; [reflexivity|]. intros H.
  destruct (H (JStr "B") eq_refl) as (i & r & Hi & Hm & Hid & Hb); [discriminate|].
  destruct i as [|[|i]]; simpl in Hi.
  - injection Hi as <-. discriminate Hid.
  - apply (Hb 0%nat (page_with_title_column "A" "Journal")); [lia|reflexivity|].
    apply title_column_is_spec_match.
  - discriminate Hi.
Qed.

(** C6, amended.  Whenever [find_page_by_name] returns an id, the search
    answered with a results array, and the id is that of the first result
    in it that is a page with a non-empty properties mapping whose title
    property (the ["title"] property when it is present and truthy,
    the ["Name"] property otherwise) has a non-empty title array whose
    first run's plain_text is exactly the name.  Conversely, when every
    result is well formed, the id of the first such result is returned. *)
Theorem find_page_by_name_first_match
    (w : World) (self : NotionClient.t) (name : string) :
  (forall v : json,
      result (find_page_by_name w self name) = Returns v -> v <> JNull ->
      exists (response : json) (items : list json) (i : nat) (r : json),
        notion_search w name = Returns response /\
        Py.getitem response "results" = Returns (JArr items) /\
        items !! i = Some r /\ page_matches r name /\ Py.getitem r "id" = Returns v /\
        forall (j : nat) (q : json),
          (j < i)%nat -> items !! j = Some q -> ~ page_matches q name)
  /\ (forall (response : json) (items : list json) (i : nat) (r : json),
         notion_search w name = Returns response ->
         Py.getitem response "results" = Returns (JArr items) ->
         Forall (fun q => well_formed_result q = true) items ->
         items !! i = Some r -> page_matches r name ->
         (forall (j : nat) (q : json),
             (j < i)%nat -> items !! j = Some q -> ~ page_matches q name) ->
         exists id : json,
           Py.getitem r "id" = Returns id /\
           find_page_by_name w self name = ([NotionSearch name], Returns id)).
Proof.
  split.
  - intros v Hres Hv.
    destruct (find_page_by_name_result_inv w self name v Hres Hv)
      as (response & Hs & Hf).
    destruct (filter_response_Some_inv response name v Hf)
      as (items & i & r & Hitems & Hi & Hm & Hid & Hb).
    exists response, items, i, r.
    exact (conj Hs (conj Hitems (conj Hi (conj Hm (conj Hid Hb))))).
  - intros response items i r Hs Hitems Hwf Hi Hm Hb.
    assert (Hr : well_formed_result r = true).
    { rewrite Forall_forall in Hwf. apply Hwf. eapply list_elem_of_lookup_2, Hi. }
    assert (Hid : exists id : json, Py.getitem r "id" = Returns id).
    { destruct r as [| | | | |?|fields]; try discriminate. simpl in *.
      destruct (Py.assoc "id" fields) as [id|]; [eauto|discriminate]. }
    destruct Hid as [id Hid]. exists id. split; [exact Hid|].
    rewrite (find_page_by_name_answered w self name response Hs).
    unfold filter_response. rewrite Hitems. simpl.
    rewrite (find_page_loop_first items name Hwf i r Hi Hm Hb), Hid. reflexivity.
Qed.

Lemma find_page_by_name_no_match
    (w : World) (self : NotionClient.t) (name : string) (response : json) :
  notion_search w name = Returns response ->
  (~ exists (items : list json) (r : json),
        Py.getitem response "results" = Returns (JArr items) /\
        r ∈ items /\ page_matches r name) ->
  result (find_page_by_name w self name) = Returns JNull.
Proof.
  intros Hs Hno. rewrite (find_page_by_name_answered w self name response Hs).
  destruct (filter_response response name) as [[v|]|e] eqn:Hf; try reflexivity.
  destruct (filter_response_Some_inv response name v Hf)
    as (items & i & r & Hitems & Hi & Hm & _).
  exfalso. apply Hno. exists items, r. repeat split; try assumption.
  eapply list_elem_of_lookup_2, Hi.
Qed.

(** C10.  Once the search has answered, [find_page_by_name] returns,
    whatever the response: nothing is raised past it.  A result that is
    not a page, has no properties, has neither a ["title"] nor a ["Name"]
    property, or has an empty title array is passed over for the next; and
    when no result of the response is a match the value returned is
    [None]. *)
Theorem find_page_by_name_total
    (w : World) (self : NotionClient.t) (name : string) (response : json) :
  notion_search w name = Returns response ->
  (exists v : json, result (find_page_by_name w self name) = Returns v)
  /\ (forall (r : json) (rest : list json),
         not_a_candidate r ->
         find_page_loop (r :: rest) name = find_page_loop rest name)
  /\ ((~ exists (items : list json) (r : json),
          Py.getitem response "results" = Returns (JArr items) /\
          r ∈ items /\ page_matches r name) ->
      result (find_page_by_name w self name) = Returns JNull).
Proof.
  intros Hs. split; [|split].
  - rewrite (find_page_by_name_answered w self name response Hs).
    destruct (filter_response response name); simpl; eauto.
  - intros r rest Hr. simpl. now rewrite (find_page_step_not_a_candidate r name Hr).
  - now apply find_page_by_name_no_match.
Qed.

End FindPageSpec.

(** ** main, specified *)

Section MainSpec.
Import NotionClient.

Lemma main_missing (w : World) :
  forallb env_truthy [getenv w "TODOIST_TOKEN"; getenv w "NOTION_TOKEN"] = false ->
  main w = ([missing_variables], Returns tt).
Proof. intros H. rewrite main_stages, H. reflexivity. Qed.

(** C3.  When [TODOIST_TOKEN] or [NOTION_TOKEN] is not in the
    environment, [main] makes no network call, prints the line about the
    missing variables and nothing else, and returns without raising. *)
Theorem main_missing_variable (w : World) :
  getenv w "TODOIST_TOKEN" = None \/ getenv w "NOTION_TOKEN" = None ->
  network_calls (main w) = [] /\
  console (main w) = [missing_variables] /\
  result (main w) = Returns tt.
Proof.
  intros H. rewrite main_missing; [repeat split|].
  destruct H as [-> | ->]; simpl; [reflexivity|].
  destruct (env_truthy (getenv w "TODOIST_TOKEN")); reflexivity.
Qed.

(** C8.  A variable that is set to the empty string counts as missing:
    [main] makes no network call, prints the line about the missing
    variables and returns. *)
Theorem main_empty_variable (w : World) :
  getenv w "TODOIST_TOKEN" = Some "" \/ getenv w "NOTION_TOKEN" = Some "" ->
  network_calls (main w) = [] /\
  console (main w) = [missing_variables] /\
  result (main w) = Returns tt.
Proof.
  intros H. rewrite main_missing; [repeat split|].
  destruct H as [-> | ->]; simpl; [reflexivity|].
  destruct (env_truthy (getenv w "TODOIST_TOKEN")); reflexivity.
Qed.

End MainSpec.

Section MainPaths.
Import NotionClient.

Lemma find_page_by_name_before_access (w : World) (self : NotionClient.t) (name : string) :
  Forall before_access (trace (find_page_by_name w self name)).
Proof.
  destruct (notion_search w name) as [response|e] eqn:Hs.
  - rewrite (find_page_by_name_answered w self name response Hs).
    destruct (filter_response response name); repeat constructor.
  - rewrite (find_page_by_name_raised w self name e Hs).
    destruct (is_Exception e); repeat constructor.
Qed.

(** Either the run ends before the access check, or it gets to it with
    some page id and some tasks. *)
Lemma main_paths (w : World) :
  Forall before_access (trace (main w))
  \/ exists (pre : list event) (journal_page_id tasks : json),
      Forall before_access pre /\
      main w
      = (pre ++ trace (main_from_access w (notion_of w) journal_page_id tasks),
         result (main_from_access w (notion_of w) journal_page_id tasks)).
Proof.
  rewrite main_stages.
  destruct (negb (forallb env_truthy _)); [left; repeat constructor|].
  unfold main_from_project. rewrite get_project_id_pair.
  destruct (result (TodoistClient.get_project_id w (todoist_of w) "Reflections"))
    as [project_id|e]; simpl; [|left; repeat constructor].
  destruct (Py.truthy project_id); simpl; [|left; repeat constructor].
  destruct (http_get w _ [("project_id", project_id)]) as [tasks|e]; simpl;
    [|left; repeat constructor].
  destruct (Py.len tasks) as [n|e]; simpl; [|left; repeat constructor].
  rewrite main_from_search_cases.
  pose proof (find_page_by_name_before_access w (notion_of w) "Journal") as Hq.
  destruct (find_page_by_name w (notion_of w) "Journal") as [t [found|e]];
    simpl in Hq |- *.
  - right. eexists (_ :: _ :: _ :: _ :: t ++ [found_journal_page]), _, tasks.
    split; [|simpl; rewrite <- app_assoc; reflexivity].
    repeat (apply Forall_cons; split; [split; reflexivity|]).
    apply Forall_app. split; [exact Hq|repeat constructor].
  - left. repeat (apply Forall_cons; split; [split; reflexivity|]). exact Hq.
Qed.

Lemma main_from_create_no_retrieve
    (w : World) (notion : NotionClient.t) (journal_page_id tasks : json) :
  Forall (fun ev => is_retrieve ev = false)
         (trace (main_from_create w notion journal_page_id tasks)).
Proof.
  rewrite main_from_create_cases. cbv zeta.
  destruct (build_content_blocks tasks) as [children|e]; [|repeat constructor].
  destruct (notion_create w _ _ children) as [page|e].
  - destruct (Py.getitem page "id"); [|repeat constructor].
    destruct (Py.len tasks); repeat constructor.
  - destruct (is_Exception e); repeat constructor.
Qed.

(** Every page-creation call of [main_from_create] is the one for the
    week title and the blocks of the tasks, and the line announcing the
    title comes just before it. *)
Lemma main_from_create_call
    (w : World) (notion : NotionClient.t) (journal_page_id tasks : json)
    (parent properties : json) (children : list json) :
  NotionCreate parent properties children
    ∈ trace (main_from_create w notion journal_page_id tasks) ->
  build_content_blocks tasks = Returns children /\
  parent = JObj [("page_id", journal_page_id)] /\
  properties = title_properties (week_title (now w)) /\
  exists rest : list event,
    main_from_create w notion journal_page_id tasks
    = (creating_page (week_title (now w))
         :: create_call journal_page_id (week_title (now w)) children :: rest,
       match notion_create w parent properties children with
       | Raises e => if is_Exception e then Returns tt else Raises e
       | Returns _ => Returns tt
       end) /\
    match notion_create w parent properties children with
    | Raises e => rest = if is_Exception e then [error_creating e] else []
    | Returns _ => True
    end.
Proof.
  rewrite main_from_create_cases. cbv zeta.
  destruct (build_content_blocks tasks) as [children'|e].
  - assert (Hin : forall l r,
               NotionCreate parent properties children
                 ∈ trace (creating_page (week_title (now w))
                            :: create_call journal_page_id (week_title (now w)) children'
                            :: l, r : outcome unit) ->
               Forall (fun ev => is_create ev = false) l ->
               children' = children /\
               parent = JObj [("page_id", journal_page_id)] /\
               properties = title_properties (week_title (now w))).
    { intros l r H Hl. simpl in H.
      apply elem_of_cons in H as [H|H]; [discriminate|].
      apply elem_of_cons in H as [H|H].
      - unfold create_call in H. injection H as -> -> ->. auto.
      - rewrite Forall_forall in Hl. specialize (Hl _ H). discriminate. }
    destruct (notion_create w (JObj [("page_id", journal_page_id)])
                            (title_properties (week_title (now w))) children')
      as [page|e] eqn:Hcreate.
    + destruct (Py.getitem page "id") as [page_id|e];
        [destruct (Py.len tasks) as [n|e]|];
        intros H; apply Hin in H as (-> & -> & ->); try (repeat constructor);
        rewrite Hcreate; eauto.
    + destruct (is_Exception e) eqn:He;
        intros H; apply Hin in H as (-> & -> & ->); try (repeat constructor);
        rewrite Hcreate, He; eauto.
  - intros H. simpl in H.
    apply elem_of_cons in H as [H|H]; [discriminate|].
    apply elem_of_cons in H as [H|H]; [discriminate|]. inversion H.
Qed.

End MainPaths.

Section MainErrors.
Import NotionClient.

Lemma not_before_access_create (l : list event) (parent properties : json)
      (children : list json) :
  Forall before_access l -> NotionCreate parent properties children ∉ l.
Proof.
  intros Hl Hin. rewrite Forall_forall in Hl.
  destruct (Hl _ Hin) as [H _]. discriminate.
Qed.

Lemma not_before_access_retrieve (l : list event) (page_id : json) :
  Forall before_access l -> NotionRetrieve page_id ∉ l.
Proof.
  intros Hl Hin. rewrite Forall_forall in Hl.
  destruct (Hl _ Hin) as [_ H]. discriminate.
Qed.

Lemma before_access_no_create (l : list event) :
  Forall before_access l -> Forall (fun ev => is_create ev = false) l.
Proof. intros H. eapply Forall_impl; [exact H|]. now intros ev [He _]. Qed.

(** A page-creation call in a run of [main] is the one [main_from_create]
    makes, after an access check that succeeded. *)
Lemma main_create_call_inv
    (w : World) (parent properties : json) (children : list json) :
  NotionCreate parent properties children ∈ trace (main w) ->
  exists (pre rest : list event) (journal_page_id : json),
    properties = title_properties (week_title (now w)) /\
    parent = JObj [("page_id", journal_page_id)] /\
    main w
    = (pre ++ creating_page (week_title (now w))
           :: create_call journal_page_id (week_title (now w)) children :: rest,
       match notion_create w parent properties children with
       | Raises e => if is_Exception e then Returns tt else Raises e
       | Returns _ => Returns tt
       end) /\
    match notion_create w parent properties children with
    | Raises e => rest = if is_Exception e then [error_creating e] else []
    | Returns _ => True
    end.
Proof.
  intros Hin. destruct (main_paths w) as [Hq|(pre & jid & tasks & Hpre & Hmain)].
  - exfalso. exact (not_before_access_create _ _ _ _ Hq Hin).
  - rewrite Hmain in Hin |- *. simpl in Hin.
    apply elem_of_app in Hin as [Hin|Hin];
      [exfalso; exact (not_before_access_create _ _ _ _ Hpre Hin)|].
    rewrite main_from_access_cases in Hin |- *.
    destruct (notion_retrieve w jid) as [page|e].
    + simpl in Hin |- *. apply elem_of_cons in Hin as [Hin|Hin]; [discriminate|].
      destruct (main_from_create_call w (notion_of w) jid tasks _ _ _ Hin)
        as (_ & Hparent & Hprops & rest & Hcreate & Hrest).
      exists (pre ++ [NotionRetrieve jid]), rest, jid.
      split; [exact Hprops|]. split; [exact Hparent|]. split; [|exact Hrest].
      rewrite Hcreate. simpl. now rewrite <- app_assoc.
    + exfalso. destruct (is_Exception e); simpl in Hin;
        repeat (apply elem_of_cons in Hin as [Hin|Hin]; [discriminate|]);
        inversion Hin.
Qed.

(** C7.  In any run of [main]: if the page-creation call raises an
    exception, [main] prints "Error creating page: " with the exception,
    right after the call and as its last line, and returns normally, as
    a run that created the page does; if the retrieval of the destination
    page raises, nothing is created: the run ends there, after printing
    "Cannot access Journal page: " with the exception. *)
Theorem main_create_and_access_errors (w : World) :
  (forall (parent properties : json) (children : list json) (e : exn),
      NotionCreate parent properties children ∈ trace (main w) ->
      notion_create w parent properties children = Raises e ->
      is_Exception e = true ->
      result (main w) = Returns tt /\
      exists pre : list event,
        trace (main w)
        = pre ++ [NotionCreate parent properties children; error_creating e])
  /\ (forall (page_id : json) (e : exn),
         NotionRetrieve page_id ∈ trace (main w) ->
         notion_retrieve w page_id = Raises e ->
         exists pre : list event,
           Forall (fun ev => is_create ev = false) pre /\
           main w
           = if is_Exception e
             then (pre ++ [NotionRetrieve page_id; cannot_access e], Returns tt)
             else (pre ++ [NotionRetrieve page_id], Raises e)).
Proof.
  split.
  - intros parent properties children e Hin Hcreate He.
    destruct (main_create_call_inv w parent properties children Hin)
      as (pre & rest & jid & Hprops & Hparent & Hmain & Hrest).
    rewrite Hcreate, He in Hmain, Hrest. subst rest.
    rewrite Hmain. split; [reflexivity|].
    exists (pre ++ [creating_page (week_title (now w))]).
    simpl. rewrite <- app_assoc. subst parent properties. reflexivity.
  - intros page_id e Hin Hretrieve.
    destruct (main_paths w) as [Hq|(pre & jid & tasks & Hpre & Hmain)].
    + exfalso. exact (not_before_access_retrieve _ _ Hq Hin).
    + rewrite Hmain in Hin |- *. simpl in Hin.
      apply elem_of_app in Hin as [Hin|Hin];
        [exfalso; exact (not_before_access_retrieve _ _ Hpre Hin)|].
      exists pre. split; [now apply before_access_no_create|].
      rewrite main_from_access_cases in Hin |- *.
      destruct (notion_retrieve w jid) as [page|e'] eqn:Hjid.
      * exfalso. simpl in Hin. apply elem_of_cons in Hin as [Hin|Hin].
        -- injection Hin as ->. congruence.
        -- pose proof (main_from_create_no_retrieve w (notion_of w) jid tasks) as Hno.
           rewrite Forall_forall in Hno. specialize (Hno _ Hin). discriminate.
      * assert (page_id = jid) as ->.
        { destruct (is_Exception e'); simpl in Hin;
            apply elem_of_cons in Hin as [Hin|Hin]; try (now injection Hin);
            try (apply elem_of_cons in Hin as [Hin|Hin]; [discriminate|]);
            inversion Hin. }
        assert (e' = e) as -> by congruence.
        destruct (is_Exception e); reflexivity.
Qed.

End MainErrors.

Section SearchFailure.
Import NotionClient.

Lemma find_page_loop_none (items : list json) (name : string) :
  Forall (fun r => well_formed_result r = true) items ->
  (forall r : json, r ∈ items -> ~ page_matches r name) ->
  find_page_loop items name = Returns None.
Proof.
  induction 1 as [|r rest Hr Hrest IH]; intros Hno; [reflexivity|].
  simpl. rewrite (find_page_step_skips r name Hr); [|apply Hno; now left].
  simpl. apply IH. intros q Hq. apply Hno. now right.
Qed.

Lemma sample_reaches_search (results retrieve create : outcome json) :
  reaches_search (world_with results retrieve create) (JStr "P1") (JArr sample_tasks).
Proof.
  split; [vm_compute; reflexivity|]. split; [reflexivity|]. split; [reflexivity|].
  split; [reflexivity|]. exists 2. reflexivity.
Qed.

(** C4, as stated, fails on two counts.  When the search raises and the
    fallback page cannot be retrieved either, the run ends at the access
    check and never gets to the page creation.  And when the search finds
    no page named "Journal", the console says "Found Journal page" and
    nothing of a page not found: it reads exactly as in a run whose
    search found the page under the fallback id. *)
Lemma search_failure_not_reported :
  (reaches_search world_search_and_access_fail (JStr "P1") (JArr sample_tasks) /\
   notion_search world_search_and_access_fail "Journal"
   = Raises (RemoteError "search unavailable") /\
   main world_search_and_access_fail
   = (events_before_search world_search_and_access_fail (JStr "P1") (JArr sample_tasks)
        ++ [NotionSearch "Journal";
            error_finding_page "Journal" (RemoteError "search unavailable");
            found_journal_page;
            NotionRetrieve fallback_journal_page_id;
            cannot_access (RemoteError "object not found")],
      Returns tt))
  /\ (result (find_page_by_name world_no_match (notion_of world_no_match) "Journal")
      = Returns JNull /\
      result (find_page_by_name world_found_at_fallback
                                (notion_of world_found_at_fallback) "Journal")
      = Returns fallback_journal_page_id /\
      console (main world_no_match)
      = [Print [Txt "Found Reflections project with ID: "; Str (JStr "P1")];
         Print [Txt "Found "; Txt "2"; Txt " tasks in Reflections project"];
         found_journal_page;
         creating_page "Reflections Nov 05 Week 1";
         created_page (JStr "NEW");
         page_contains 2] /\
      console (main world_no_match) = console (main world_found_at_fallback)).
Proof.
  split; [split; [apply sample_reaches_search|split; reflexivity]|].
  repeat split; vm_compute; reflexivity.
Qed.

(** C4, amended.  In a run that gets as far as the search: if the search
    raises an exception, [find_page_by_name] catches it, prints "Error
    finding page Journal: " with the exception and returns [None]; if the
    search answers and no result matches, it returns [None], and prints
    nothing when the results are well formed.  Whenever it returns
    [None], [main] goes on with the fallback id: it prints "Found Journal
    page" and checks the access to the fallback page.  Only if that check
    succeeds does the run get to the page creation, announced by its
    title and made with the fallback id as parent; if the check raises,
    the run ends there. *)
Theorem search_failure_falls_back (w : World) (project_id tasks : json) :
  reaches_search w project_id tasks ->
  let find := find_page_by_name w (notion_of w) "Journal" in
  (forall e : exn,
      notion_search w "Journal" = Raises e -> is_Exception e = true ->
      find = ([NotionSearch "Journal"; error_finding_page "Journal" e], Returns JNull))
  /\ (forall response : json,
         notion_search w "Journal" = Returns response ->
         (~ exists (items : list json) (r : json),
               Py.getitem response "results" = Returns (JArr items) /\
               r ∈ items /\ page_matches r "Journal") ->
         result find = Returns JNull)
  /\ (forall (response : json) (items : list json),
         notion_search w "Journal" = Returns response ->
         Py.getitem response "results" = Returns (JArr items) ->
         Forall (fun r => well_formed_result r = true) items ->
         (forall r : json, r ∈ items -> ~ page_matches r "Journal") ->
         find = ([NotionSearch "Journal"], Returns JNull))
  /\ (result find = Returns JNull ->
      exists rest : list event,
        trace (main w)
        = events_before_search w project_id tasks
            ++ trace find
            ++ [found_journal_page; NotionRetrieve fallback_journal_page_id]
            ++ rest /\
        (forall page : json,
            notion_retrieve w fallback_journal_page_id = Returns page ->
            exists rest' : list event,
              rest = creating_page (week_title (now w)) :: rest' /\
              forall children : list json,
                build_content_blocks tasks = Returns children ->
                exists rest'' : list event,
                  rest' = create_call fallback_journal_page_id
                                      (week_title (now w)) children :: rest'') /\
        (forall e : exn,
            notion_retrieve w fallback_journal_page_id = Raises e ->
            rest = (if is_Exception e then [cannot_access e] else []) /\
            result (main w) = if is_Exception e then Returns tt else Raises e)).
Proof.
  intros Hreach find. split; [|split; [|split]].
  - intros e Hs He. unfold find.
    now rewrite (find_page_by_name_raised w _ "Journal" e Hs), He.
  - intros response Hs Hno.
    now apply (find_page_by_name_no_match w (notion_of w) "Journal" response Hs).
  - intros response items Hs Hitems Hwf Hno. unfold find.
    rewrite (find_page_by_name_answered w _ "Journal" response Hs).
    unfold filter_response. rewrite Hitems. simpl.
    now rewrite (find_page_loop_none items "Journal" Hwf Hno).
  - intros Hnone.
    rewrite (main_reaches_search w project_id tasks Hreach).
    rewrite main_from_search_cases. fold find.
    destruct find as [t r]. simpl in Hnone. subst r.
    change (journal_page_id_of JNull) with fallback_journal_page_id.
    rewrite main_from_access_cases.
    destruct (notion_retrieve w fallback_journal_page_id) as [page|e].
    + exists (trace (main_from_create w (notion_of w) fallback_journal_page_id tasks)).
      split; [reflexivity|]. split; [|discriminate].
      intros _ _. rewrite main_from_create_cases. cbv zeta.
      destruct (build_content_blocks tasks) as [children|e].
      * destruct (notion_create w _ _ children) as [created|e];
          [destruct (Py.getitem created "id"); [destruct (Py.len tasks)|]
          |destruct (is_Exception e)];
          (eexists; split; [reflexivity|]; intros ? [= <-]; eexists; reflexivity).
      * eexists. split; [reflexivity|]. discriminate.
    + exists (if is_Exception e then [cannot_access e] else []).
      split; [destruct (is_Exception e); reflexivity|]. split; [discriminate|].
      intros ? [= <-]. split; [reflexivity|]. destruct (is_Exception e); reflexivity.
Qed.

End SearchFailure.

(** ** Worked runs *)

Section Runs.
Import NotionClient.

(** The name is compared as it is: another case, or a part of the name,
    finds nothing. *)
Example get_project_id_is_exact :
  TodoistClient.get_project_id_loop sample_projects "Reflections" = Returns (JStr "P1") /\
  TodoistClient.get_project_id_loop sample_projects "reflections" = Returns JNull /\
  TodoistClient.get_project_id_loop sample_projects "Reflect" = Returns JNull.
Proof. repeat split. Qed.

(** A run in which the search finds nothing and everything else succeeds:
    the network calls, in order. *)
Example run_with_fallback :
  network_calls (main world_no_match)
  = [HttpGet projects_url [("Authorization", JStr "Bearer todoist-secret")] [];
     HttpGet tasks_url [("Authorization", JStr "Bearer todoist-secret")]
             [("project_id", JStr "P1")];
     NotionSearch "Journal";
     NotionRetrieve fallback_journal_page_id;
     create_call fallback_journal_page_id "Reflections Nov 05 Week 1" sample_children]
  /\ result (main world_no_match) = Returns tt.
Proof. split; vm_compute; reflexivity. Qed.

(** Untyped data: a result that is not a mapping makes the filter raise,
    which is caught, so that a later match is not returned. *)
Example malformed_result_hides_later_match :
  find_page_by_name
    (world_with (Returns (search_response [JStr "oops"; page "J1" "title" "Journal"]))
                some_page new_page)
    (NotionClient.__init__ "notion-secret") "Journal"
  = ([NotionSearch "Journal"; error_finding_page "Journal" AttributeError],
     Returns JNull).
Proof. reflexivity. Qed.

(** Week ordinals at the boundaries, in a month of 31 days and in February. *)
Example week_titles :
  map (fun d => get_week_title {| year := 2025; month := 1; day := d |})
      [1; 7; 8; 14; 15; 21; 22; 28; 29; 31]
  = ["Jan 01 Week 1"; "Jan 07 Week 1"; "Jan 08 Week 2"; "Jan 14 Week 2";
     "Jan 15 Week 3"; "Jan 21 Week 3"; "Jan 22 Week 4"; "Jan 28 Week 4";
     "Jan 29 Week 5"; "Jan 31 Week 5"]
  /\ get_week_title {| year := 2024; month := 2; day := 29 |} = "Feb 29 Week 5".
Proof. split; vm_compute; reflexivity. Qed.

End Runs.

(** ** The week title *)

Section WeekTitle.

Lemma main_create_call_title
    (w : World) (parent properties : json) (children : list json) :
  NotionCreate parent properties children ∈ trace (main w) ->
  properties = title_properties (week_title (now w)) /\
  creating_page (week_title (now w)) ∈ trace (main w).
Proof.
  intros Hin.
  destruct (main_create_call_inv w parent properties children Hin)
    as (pre & rest & jid & Hprops & _ & Hmain & _).
  split; [exact Hprops|]. rewrite Hmain. simpl.
  apply elem_of_app. right. left.
Qed.

(** C2.  For a date whose day of the month [d] is between 1 and 31, the
    title [main] gives the page is "Reflections ", the abbreviated name
    of the month, a space, the two digits of [d] (a leading zero below
    10), " Week " and the digit of [(d - 1) // 7 + 1]: 1 for the days 1
    to 7, 2 for 8 to 14, 3 for 15 to 21, 4 for 22 to 28 and 5 for 29 to
    31, whatever the month.  Any page [main] creates on that date carries
    this title, which [main] also prints. *)
Theorem week_title_format (date : datetime) :
  1 <= day date <= 31 ->
  let d := day date in
  let ordinal := (d - 1) `div` 7 + 1 in
  "Reflections " +:+ get_week_title date
  = "Reflections " +:+ month_abbr (month date) +:+ " "
      +:+ digit (d `div` 10) +:+ digit (d `mod` 10) +:+ " Week " +:+ digit ordinal
  /\ (1 <= d <= 7 -> ordinal = 1)
  /\ (8 <= d <= 14 -> ordinal = 2)
  /\ (15 <= d <= 21 -> ordinal = 3)
  /\ (22 <= d <= 28 -> ordinal = 4)
  /\ (29 <= d <= 31 -> ordinal = 5)
  /\ forall (w : World) (parent properties : json) (children : list json),
      now w = date ->
      NotionCreate parent properties children ∈ trace (main w) ->
      properties = title_properties ("Reflections " +:+ get_week_title date) /\
      Print [Txt "Creating page with title: ";
             Txt ("Reflections " +:+ get_week_title date)] ∈ trace (main w).
Proof.
  intros Hd d ordinal. split; [|repeat split].
  - unfold get_week_title, strftime_b_d. cbv zeta.
    rewrite !string_app_assoc. fold d.
    now rewrite (day_and_week_digits d Hd).
  - intros H. subst ordinal. Z.div_mod_to_equations. lia.
  - intros H. subst ordinal. Z.div_mod_to_equations. lia.
  - intros H. subst ordinal. Z.div_mod_to_equations. lia.
  - intros H. subst ordinal. Z.div_mod_to_equations. lia.
  - intros H. subst ordinal. Z.div_mod_to_equations. lia.
  - subst date. eapply main_create_call_title; eassumption.
  - subst date. eapply main_create_call_title; eassumption.
Qed.

End WeekTitle.

(** ** Instances

    Each property that has premises, applied to sample data on which the
    premises hold. *)

Section Instances.
Import NotionClient.

Lemma create_reflections_child_page_blocks_sample :
  Forall2 content_is sample_tasks sample_contents /\
  exists children : list json,
    build_content_blocks (JArr sample_tasks) = Returns children /\
    children = sample_children.
Proof.
  assert (H : Forall2 content_is sample_tasks sample_contents)
    by (repeat constructor).
  split; [exact H|].
  destruct (create_reflections_child_page_blocks
              (world_with some_page some_page new_page)
              (NotionClient.__init__ "notion-secret") (JStr "J1") "t"
              sample_tasks sample_contents H)
    as (children & Hb & _ & Hne & _).
  exists children. split; [exact Hb|]. apply Hne. discriminate.
Defined.

Lemma week_title_format_sample :
  1 <= 5 <= 31 /\
  "Reflections " +:+ get_week_title {| year := 2025; month := 11; day := 5 |}
  = "Reflections Nov 05 Week 1".
Proof.
  assert (H : 1 <= 5 <= 31) by lia.
  split; [exact H|].
  exact (proj1 (week_title_format {| year := 2025; month := 11; day := 5 |} H)).
Defined.

Lemma main_missing_variable_sample :
  getenv (world_without "NOTION_TOKEN") "NOTION_TOKEN" = None /\
  network_calls (main (world_without "NOTION_TOKEN")) = [].
Proof.
  assert (H : getenv (world_without "NOTION_TOKEN") "NOTION_TOKEN" = None)
    by (vm_compute; reflexivity).
  split; [exact H|].
  exact (proj1 (main_missing_variable (world_without "NOTION_TOKEN") (or_intror H))).
Defined.

Lemma main_empty_variable_sample :
  getenv (world_with_empty "TODOIST_TOKEN") "TODOIST_TOKEN" = Some "" /\
  network_calls (main (world_with_empty "TODOIST_TOKEN")) = [].
Proof.
  assert (H : getenv (world_with_empty "TODOIST_TOKEN") "TODOIST_TOKEN" = Some "")
    by (vm_compute; reflexivity).
  split; [exact H|].
  exact (proj1 (main_empty_variable (world_with_empty "TODOIST_TOKEN") (or_introl H))).
Defined.

Lemma search_failure_falls_back_sample :
  reaches_search world_search_fails (JStr "P1") (JArr sample_tasks) /\
  notion_search world_search_fails "Journal" = Raises (RemoteError "search unavailable") /\
  find_page_by_name world_search_fails (notion_of world_search_fails) "Journal"
  = ([NotionSearch "Journal";
      error_finding_page "Journal" (RemoteError "search unavailable")],
     Returns JNull).
Proof.
  pose proof (sample_reaches_search (Raises (RemoteError "search unavailable"))
                                    some_page new_page) as H.
  split; [exact H|]. split; [reflexivity|].
  exact (proj1 (search_failure_falls_back world_search_fails _ _ H)
               (RemoteError "search unavailable") eq_refl eq_refl).
Defined.

Lemma get_project_id_first_exact_match_sample :
  Forall (fun p => is_project p = true) sample_projects /\
  exists id : json,
    Py.getitem (project "P1" "Reflections") "id" = Returns id /\
    result (TodoistClient.get_project_id world_no_match (todoist_of world_no_match)
                                         "Reflections") = Returns id.
Proof.
  assert (H : Forall (fun p => is_project p = true) sample_projects)
    by (repeat constructor).
  split; [exact H|].
  apply (proj1 (get_project_id_first_exact_match
                  world_no_match (todoist_of world_no_match) sample_projects
                  "Reflections" eq_refl H) 1%nat (project "P1" "Reflections")).
  - reflexivity.
  - reflexivity.
  - intros [|j] q Hj Hq; [|lia]. injection Hq as <-. discriminate.
Defined.

Lemma find_page_by_name_first_match_sample :
  result (find_page_by_name world_two_journals (notion_of world_two_journals) "Journal")
  = Returns (JStr "J1") /\
  exists (response : json) (items : list json) (i : nat) (r : json),
    notion_search world_two_journals "Journal" = Returns response /\
    Py.getitem response "results" = Returns (JArr items) /\
    items !! i = Some r /\ page_matches r "Journal" /\
    Py.getitem r "id" = Returns (JStr "J1") /\
    forall (j : nat) (q : json),
      (j < i)%nat -> items !! j = Some q -> ~ page_matches q "Journal".
Proof.
  assert (H : result (find_page_by_name world_two_journals
                                        (notion_of world_two_journals) "Journal")
              = Returns (JStr "J1")) by reflexivity.
  split; [exact H|].
  apply (proj1 (find_page_by_name_first_match
                  world_two_journals (notion_of world_two_journals) "Journal")
               (JStr "J1") H).
  discriminate.
Defined.

Lemma main_create_and_access_errors_sample :
  (NotionCreate (JObj [("page_id", JStr "J1")])
                (title_properties "Reflections Nov 05 Week 1") sample_children
     ∈ trace (main world_create_fails) /\
   result (main world_create_fails) = Returns tt)
  /\ (NotionRetrieve (JStr "J1") ∈ trace (main world_access_fails) /\
      exists pre : list event,
        Forall (fun ev => is_create ev = false) pre /\
        main world_access_fails
        = (pre ++ [NotionRetrieve (JStr "J1");
                   cannot_access (RemoteError "object not found")],
           Returns tt)).
Proof.
  assert (H1 : NotionCreate (JObj [("page_id", JStr "J1")])
                 (title_properties "Reflections Nov 05 Week 1") sample_children
                 ∈ trace (main world_create_fails)).
  { vm_compute. repeat first [apply list_elem_of_here | apply list_elem_of_further]. }
  assert (H2 : NotionRetrieve (JStr "J1") ∈ trace (main world_access_fails)).
  { vm_compute. repeat first [apply list_elem_of_here | apply list_elem_of_further]. }
  split; split; [exact H1| |exact H2|].
  - exact (proj1 (proj1 (main_create_and_access_errors world_create_fails)
                        _ _ _ (RemoteError "validation error") H1 eq_refl eq_refl)).
  - exact (proj2 (main_create_and_access_errors world_access_fails)
                 (JStr "J1") (RemoteError "object not found") H2 eq_refl).
Defined.

Lemma blocks_depend_on_content_only_sample :
  Forall2 same_content sample_tasks sample_tasks_renumbered /\
  build_content_blocks (JArr sample_tasks)
  = build_content_blocks (JArr sample_tasks_renumbered).
Proof.
  assert (H : Forall2 same_content sample_tasks sample_tasks_renumbered)
    by (repeat constructor).
  split; [exact H|].
  exact (proj1 (blocks_depend_on_content_only _ _ H)).
Defined.

Lemma find_page_by_name_total_sample :
  notion_search world_no_match "Journal"
  = Returns (search_response [database "D1"; page "X" "title" "Diary"]) /\
  exists v : json,
    result (find_page_by_name world_no_match (notion_of world_no_match) "Journal")
    = Returns v.
Proof.
  assert (H : notion_search world_no_match "Journal"
              = Returns (search_response [database "D1"; page "X" "title" "Diary"]))
    by reflexivity.
  split; [exact H|].
  exact (proj1 (find_page_by_name_total world_no_match (notion_of world_no_match)
                                        "Journal" _ H)).
Defined.

End Instances.

(** * Further properties *)

(** ** get_project_id on ill-formed project lists *)

Section GetProjectIdErrors.
Import TodoistClient.

Lemma get_project_id_loop_app (pre rest : list json) (name : string) :
  Forall (fun p => is_project p = true) pre ->
  (forall p : json, p ∈ pre -> ~ name_is p name) ->
  get_project_id_loop (pre ++ rest) name = get_project_id_loop rest name.
Proof.
  induction 1 as [|q pre Hq Hpre IH]; intros Hno; [reflexivity|].
  simpl app. rewrite get_project_id_loop_skip; [|assumption|apply Hno; now left].
  apply IH. intros p Hp. apply Hno. now right.
Qed.

Lemma get_project_id_result (w : World) (self : TodoistClient.t) (name : string)
      (projects : list json) :
  http_get w (base_url self +:+ "/projects") [] = Returns (JArr projects) ->
  result (get_project_id w self name) = get_project_id_loop projects name.
Proof. intros H. unfold get_project_id. rewrite H. reflexivity. Qed.

(** X1.  A project entry that has no name, met before any project of the
    name asked for, makes [get_project_id] raise, whatever follows it in
    the list: [KeyError] for a mapping without ["name"], [TypeError] for
    an entry that is not a mapping. *)
Theorem get_project_id_entry_without_name
    (w : World) (self : TodoistClient.t) (pre rest : list json) (bad : json)
    (name : string) :
  http_get w (base_url self +:+ "/projects") [] = Returns (JArr (pre ++ bad :: rest)) ->
  Forall (fun p => is_project p = true) pre ->
  (forall p : json, p ∈ pre -> ~ name_is p name) ->
  (forall fields : list (string * json),
      bad = JObj fields -> Py.assoc "name" fields = None ->
      result (get_project_id w self name) = Raises (KeyError (JStr "name")))
  /\ ((forall fields : list (string * json), bad <> JObj fields) ->
      result (get_project_id w self name) = Raises TypeError).
Proof.
  intros Hget Hpre Hno.
  rewrite (get_project_id_result w self name _ Hget).
  rewrite (get_project_id_loop_app pre (bad :: rest) name Hpre Hno).
  split.
  - intros fields -> Hname. simpl. now rewrite Hname.
  - intros Hbad. destruct bad; try reflexivity. now destruct (Hbad fields).
Qed.

(** X2.  When the first project of the name asked for has no id,
    [get_project_id] raises [KeyError]: a later project of the same name
    is not looked at. *)
Theorem get_project_id_match_without_id
    (w : World) (self : TodoistClient.t) (pre rest : list json)
    (fields : list (string * json)) (name : string) :
  http_get w (base_url self +:+ "/projects") []
  = Returns (JArr (pre ++ JObj fields :: rest)) ->
  Forall (fun p => is_project p = true) pre ->
  (forall p : json, p ∈ pre -> ~ name_is p name) ->
  name_is (JObj fields) name ->
  Py.assoc "id" fields = None ->
  result (get_project_id w self name) = Raises (KeyError (JStr "id")).
Proof.
  intros Hget Hpre Hno Hname Hid.
  rewrite (get_project_id_result w self name _ Hget).
  rewrite (get_project_id_loop_app pre (JObj fields :: rest) name Hpre Hno).
  rewrite (get_project_id_loop_hit (JObj fields) rest name Hname).
  simpl. now rewrite Hid.
Qed.

End GetProjectIdErrors.

(** ** find_page_by_name on ill-formed responses *)

Section FindPageErrors.
Import NotionClient.

Lemma find_page_loop_app (pre rest : list json) (name : string) :
  Forall (fun r => well_formed_result r = true) pre ->
  (forall r : json, r ∈ pre -> ~ page_matches r name) ->
  find_page_loop (pre ++ rest) name = find_page_loop rest name.
Proof.
  induction 1 as [|q pre Hq Hpre IH]; intros Hno; [reflexivity|].
  simpl. rewrite (find_page_step_skips q name Hq); [|apply Hno; now left].
  simpl. apply IH. intros r Hr. apply Hno. now right.
Qed.

Lemma find_page_by_name_loop
    (w : World) (self : NotionClient.t) (name : string) (response : json)
    (items : list json) :
  notion_search w name = Returns response ->
  Py.getitem response "results" = Returns (JArr items) ->
  find_page_by_name w self name
  = match find_page_loop items name with
    | Returns returned => ([NotionSearch name], Returns (default JNull returned))
    | Raises e => ([NotionSearch name; error_finding_page name e], Returns JNull)
    end.
Proof.
  intros Hs Hitems. rewrite (find_page_by_name_answered w self name response Hs).
  unfold filter_response. rewrite Hitems. reflexivity.
Qed.

(** X3.  One result that is not a mapping, met before any match, hides
    every match that follows it: the filter raises [AttributeError] on it,
    [find_page_by_name] prints the error and returns [None]. *)
Theorem find_page_by_name_hidden_by_malformed_result
    (w : World) (self : NotionClient.t) (name : string) (response : json)
    (pre rest : list json) (bad : json) :
  notion_search w name = Returns response ->
  Py.getitem response "results" = Returns (JArr (pre ++ bad :: rest)) ->
  Forall (fun r => well_formed_result r = true) pre ->
  (forall r : json, r ∈ pre -> ~ page_matches r name) ->
  (forall fields : list (string * json), bad <> JObj fields) ->
  find_page_by_name w self name
  = ([NotionSearch name; error_finding_page name AttributeError], Returns JNull).
Proof.
  intros Hs Hitems Hpre Hno Hbad.
  rewrite (find_page_by_name_loop w self name response _ Hs Hitems).
  rewrite (find_page_loop_app pre (bad :: rest) name Hpre Hno).
  destruct bad; try reflexivity. now destruct (Hbad fields).
Qed.

(** X4.  When the first matching page has no id, [find_page_by_name]
    prints the [KeyError] and returns [None]; a later matching page is not
    returned. *)
Theorem find_page_by_name_match_without_id
    (w : World) (self : NotionClient.t) (name : string) (response : json)
    (pre rest : list json) (fields : list (string * json)) :
  notion_search w name = Returns response ->
  Py.getitem response "results" = Returns (JArr (pre ++ JObj fields :: rest)) ->
  Forall (fun r => well_formed_result r = true) pre ->
  (forall r : json, r ∈ pre -> ~ page_matches r name) ->
  page_matches (JObj fields) name ->
  Py.assoc "id" fields = None ->
  find_page_by_name w self name
  = ([NotionSearch name; error_finding_page name (KeyError (JStr "id"))], Returns JNull).
Proof.
  intros Hs Hitems Hpre Hno Hm Hid.
  rewrite (find_page_by_name_loop w self name response _ Hs Hitems).
  rewrite (find_page_loop_app pre (JObj fields :: rest) name Hpre Hno).
  simpl. rewrite (find_page_step_match (JObj fields) name Hm).
  simpl. now rewrite Hid.
Qed.

(** X5.  A response from which the results cannot be taken is reported and
    counts as no page found: a mapping without ["results"] gives the
    [KeyError], a response that is not a mapping the [TypeError], results
    that cannot be iterated over the [TypeError]; an empty results array
    gives [None] with nothing printed. *)
Theorem find_page_by_name_without_results
    (w : World) (self : NotionClient.t) (name : string) (response : json) :
  notion_search w name = Returns response ->
  (forall fields : list (string * json),
      response = JObj fields -> Py.assoc "results" fields = None ->
      find_page_by_name w self name
      = ([NotionSearch name; error_finding_page name (KeyError (JStr "results"))],
         Returns JNull))
  /\ ((forall fields : list (string * json), response <> JObj fields) ->
      find_page_by_name w self name
      = ([NotionSearch name; error_finding_page name TypeError], Returns JNull))
  /\ (forall results : json,
         Py.getitem response "results" = Returns results ->
         Py.iter results = Raises TypeError ->
         find_page_by_name w self name
         = ([NotionSearch name; error_finding_page name TypeError], Returns JNull))
  /\ (Py.getitem response "results" = Returns (JArr []) ->
      find_page_by_name w self name = ([NotionSearch name], Returns JNull)).
Proof.
  intros Hs. rewrite (find_page_by_name_answered w self name response Hs).
  unfold filter_response. split; [|split; [|split]].
  - intros fields -> Hres. simpl. now rewrite Hres.
  - intros Hbad. destruct response; try reflexivity. now destruct (Hbad fields).
  - intros results Hres Hiter. rewrite Hres. simpl. now rewrite Hiter.
  - intros Hres. rewrite Hres. reflexivity.
Qed.

End FindPageErrors.

(** ** create_reflections_child_page on ill-formed tasks *)

Section CreateErrors.
Import NotionClient.

Lemma append_tasks_app (pre rest contents acc : list json) :
  Forall2 content_is pre contents ->
  append_tasks acc (pre ++ rest)
  = append_tasks (acc ++ map bulleted_list_item contents) rest.
Proof.
  intros H. revert acc.
  induction H as [|task content pre contents Hc _ IH]; intros acc; simpl.
  - now rewrite app_nil_r.
  - unfold content_is in Hc. rewrite Hc. simpl.
    rewrite IH, <- app_assoc. reflexivity.
Qed.

(** X6.  A task without a content, anywhere in the list, stops
    [create_reflections_child_page] before the page-creation call: the
    exception is raised while the blocks are built, nothing is sent. *)
Theorem create_reflections_child_page_task_without_content
    (w : World) (self : NotionClient.t) (parent_page_id : json) (title : string)
    (pre rest contents : list json) (bad : json) (e : exn) :
  Forall2 content_is pre contents ->
  Py.getitem bad "content" = Raises e ->
  create_reflections_child_page w self parent_page_id title (JArr (pre ++ bad :: rest))
  = ([], Raises e).
Proof.
  intros Hpre Hbad.
  assert (Hb : build_content_blocks (JArr (pre ++ bad :: rest)) = Raises e).
  { unfold build_content_blocks.
    assert (Ht : Py.truthy (JArr (pre ++ bad :: rest)) = true) by (now destruct pre).
    rewrite Ht.
    change (append_tasks ([] ++ [heading_2]) (pre ++ bad :: rest) = Raises e).
    rewrite (append_tasks_app pre (bad :: rest) contents _ Hpre).
    simpl. now rewrite Hbad. }
  unfold create_reflections_child_page. now rewrite Hb.
Qed.

End CreateErrors.

(** ** The runs of main *)

Section Runs2.
Import NotionClient.

Lemma main_from_project_cases (w : World) :
  main_from_project w (todoist_of w) (notion_of w)
  = match result (TodoistClient.get_project_id w (todoist_of w) "Reflections") with
    | Raises e => ([projects_call w], Raises e)
    | Returns project_id =>
        if Py.truthy project_id then
          match http_get w tasks_url [("project_id", project_id)] with
          | Raises e =>
              ([projects_call w; found_project project_id; tasks_call w project_id],
               Raises e)
          | Returns tasks =>
              match Py.len tasks with
              | Raises e =>
                  ([projects_call w; found_project project_id; tasks_call w project_id],
                   Raises e)
              | Returns n =>
                  (events_before_search w project_id tasks
                     ++ trace (main_from_search w (notion_of w) tasks),
                   result (main_from_search w (notion_of w) tasks))
              end
          end
        else ([projects_call w; project_not_found], Returns tt)
    end.
Proof.
  unfold main_from_project. rewrite get_project_id_pair.
  destruct (result (TodoistClient.get_project_id w (todoist_of w) "Reflections"))
    as [project_id|e]; simpl; [|reflexivity].
  destruct (Py.truthy project_id); simpl; [|reflexivity].
  change ("https://api.todoist.com/rest/v2" +:+ "/tasks") with tasks_url.
  destruct (http_get w tasks_url [("project_id", project_id)]) as [tasks|e]; simpl;
    [|reflexivity].
  unfold events_before_search.
  destruct (Py.len tasks) as [n|e]; simpl; [|reflexivity].
  destruct (main_from_search w (notion_of w) tasks). reflexivity.
Qed.

(** How [find_page_by_name] can end: a value and the search alone; [None]
    after a caught exception, printed; or an exception that is not caught. *)
Lemma find_page_by_name_shape (w : World) (self : NotionClient.t) (name : string) :
  (exists found : json, find_page_by_name w self name = ([NotionSearch name], Returns found))
  \/ (exists e : exn,
         is_Exception e = true /\
         find_page_by_name w self name
         = ([NotionSearch name; error_finding_page name e], Returns JNull))
  \/ (exists e : exn,
         is_Exception e = false /\ notion_search w name = Raises e /\
         find_page_by_name w self name = ([NotionSearch name], Raises e)).
Proof.
  destruct (notion_search w name) as [response|e] eqn:Hs.
  - rewrite (find_page_by_name_answered w self name response Hs).
    pose proof (catchable_filter_response response name) as Hc.
    destruct (filter_response response name) as [returned|e]; [left; eauto|].
    right. left. exists e. split; [now apply Hc|reflexivity].
  - rewrite (find_page_by_name_raised w self name e Hs).
    destruct (is_Exception e) eqn:He; [right; left|right; right]; eauto.
Qed.

Lemma main_from_access_run
    (w : World) (notion : NotionClient.t) (journal_page_id tasks : json) :
  main_from_access w notion journal_page_id tasks
  = match notion_retrieve w journal_page_id with
    | Raises e =>
        if is_Exception e
        then ([NotionRetrieve journal_page_id; cannot_access e], Returns tt)
        else ([NotionRetrieve journal_page_id], Raises e)
    | Returns _ =>
        match build_content_blocks tasks with
        | Raises e =>
            ([NotionRetrieve journal_page_id; creating_page (week_title (now w));
              error_creating e], Returns tt)
        | Returns children =>
            let created :=
              notion_create w (JObj [("page_id", journal_page_id)])
                            (title_properties (week_title (now w))) children in
            ([NotionRetrieve journal_page_id; creating_page (week_title (now w));
              create_call journal_page_id (week_title (now w)) children]
               ++ trace (after_create created tasks),
             result (after_create created tasks))
        end
    end.
Proof.
  rewrite main_from_access_cases.
  destruct (notion_retrieve w journal_page_id) as [page|e]; [|reflexivity].
  rewrite main_from_create_cases. cbv zeta.
  destruct (build_content_blocks tasks) as [children|e]; [|reflexivity].
  unfold after_create.
  destruct (notion_create w _ _ children) as [created|e].
  - destruct (Py.getitem created "id"); [destruct (Py.len tasks)|]; reflexivity.
  - destruct (is_Exception e); reflexivity.
Qed.

Lemma after_create_prints (created : outcome json) (tasks : json) :
  Forall (fun ev => is_network_call ev = false) (trace (after_create created tasks)).
Proof.
  unfold after_create. destruct created as [page|e].
  - destruct (Py.getitem page "id"); [destruct (Py.len tasks)|]; repeat constructor.
  - destruct (is_Exception e); repeat constructor.
Qed.

(** A run that gets to the search goes on as the answer of the search and
    that of the access check decide. *)
Lemma main_after_search (w : World) (project_id tasks : json) :
  reaches_search w project_id tasks ->
  main w
  = match find_page_by_name w (notion_of w) "Journal" with
    | (t, Raises e) => (events_before_search w project_id tasks ++ t, Raises e)
    | (t, Returns found) =>
        (events_before_search w project_id tasks ++ t ++ found_journal_page
           :: trace (main_from_access w (notion_of w) (journal_page_id_of found) tasks),
         result (main_from_access w (notion_of w) (journal_page_id_of found) tasks))
    end.
Proof.
  intros Hreach. rewrite (main_reaches_search w project_id tasks Hreach).
  rewrite main_from_search_cases.
  destruct (find_page_by_name w (notion_of w) "Journal") as [t [found|e]]; reflexivity.
Qed.

(** Where a run of [main] stands when it does not get to the search. *)
Lemma main_before_search (w : World) :
  main w = ([missing_variables], Returns tt)
  \/ (exists e : exn, main w = ([projects_call w], Raises e))
  \/ main w = ([projects_call w; project_not_found], Returns tt)
  \/ (exists (project_id : json) (e : exn),
         main w = ([projects_call w; found_project project_id; tasks_call w project_id],
                   Raises e))
  \/ (exists project_id tasks : json, reaches_search w project_id tasks).
Proof.
  rewrite main_stages.
  destruct (forallb env_truthy _) eqn:Henv; simpl negb; cbv iota; [|now left].
  rewrite main_from_project_cases.
  destruct (result (TodoistClient.get_project_id w (todoist_of w) "Reflections"))
    as [project_id|e] eqn:Hpid; [|right; left; eauto].
  destruct (Py.truthy project_id) eqn:Ht; [|right; right; left; reflexivity].
  destruct (http_get w tasks_url [("project_id", project_id)]) as [tasks|e] eqn:Htasks;
    [|right; right; right; left; eauto].
  destruct (Py.len tasks) as [n|e] eqn:Hlen; [|right; right; right; left; eauto].
  right; right; right; right. exists project_id, tasks.
  repeat split; try assumption. now exists n.
Qed.

End Runs2.

(** ** main: what escapes and what is reported *)

Section MainTodoist.
Import NotionClient.

Lemma main_with_credentials (w : World) :
  credentials_set w -> main w = main_from_project w (todoist_of w) (notion_of w).
Proof. intros Henv. unfold credentials_set in Henv. now rewrite main_stages, Henv. Qed.

Lemma get_project_id_request_raises (w : World) (e : exn) :
  http_get w projects_url [] = Raises e ->
  result (TodoistClient.get_project_id w (todoist_of w) "Reflections") = Raises e.
Proof.
  intros He. unfold TodoistClient.get_project_id.
  change (TodoistClient.base_url (todoist_of w) +:+ "/projects") with projects_url.
  now rewrite He.
Qed.

(** X7.  Nothing in [main] catches what the Todoist calls raise.  When
    the resolution of the project raises (the request failed, or the
    project list is ill formed), [main] ends with that exception after the
    one request, having printed nothing; when the request for the tasks
    raises, it ends with that exception after the second request. *)
Theorem main_todoist_errors_escape (w : World) :
  credentials_set w ->
  (forall e : exn,
      http_get w projects_url [] = Raises e -> main w = ([projects_call w], Raises e))
  /\ (forall e : exn,
         result (TodoistClient.get_project_id w (todoist_of w) "Reflections") = Raises e ->
         main w = ([projects_call w], Raises e))
  /\ (forall (project_id : json) (e : exn),
         result (TodoistClient.get_project_id w (todoist_of w) "Reflections")
         = Returns project_id ->
         Py.truthy project_id = true ->
         http_get w tasks_url [("project_id", project_id)] = Raises e ->
         main w = ([projects_call w; found_project project_id; tasks_call w project_id],
                   Raises e)).
Proof.
  intros Henv. split; [|split].
  - intros e He. rewrite (main_with_credentials w Henv), main_from_project_cases.
    now rewrite (get_project_id_request_raises w e He).
  - intros e He. rewrite (main_with_credentials w Henv), main_from_project_cases.
    now rewrite He.
  - intros project_id e Hpid Ht He.
    rewrite (main_with_credentials w Henv), main_from_project_cases.
    now rewrite Hpid, Ht, He.
Qed.

(** X8.  When no project of the list is called exactly "Reflections",
    [main] says so and ends normally after the one request: no task is
    fetched and nothing is sent to Notion.  A project whose id is falsy
    (an empty string, zero) is reported in the same way. *)
Theorem main_project_not_found (w : World) :
  credentials_set w ->
  (forall projects : list json,
      http_get w projects_url [] = Returns (JArr projects) ->
      Forall (fun p => is_project p = true) projects ->
      (forall p : json, p ∈ projects -> ~ name_is p "Reflections") ->
      main w = ([projects_call w; project_not_found], Returns tt))
  /\ (forall project_id : json,
         result (TodoistClient.get_project_id w (todoist_of w) "Reflections")
         = Returns project_id ->
         Py.truthy project_id = false ->
         main w = ([projects_call w; project_not_found], Returns tt)).
Proof.
  intros Henv.
  assert (Hfalsy : forall project_id : json,
             result (TodoistClient.get_project_id w (todoist_of w) "Reflections")
             = Returns project_id ->
             Py.truthy project_id = false ->
             main w = ([projects_call w; project_not_found], Returns tt)).
  { intros project_id Hpid Ht.
    rewrite (main_with_credentials w Henv), main_from_project_cases.
    now rewrite Hpid, Ht. }
  split; [|exact Hfalsy].
  intros projects Hget Hall Hno. apply (Hfalsy JNull); [|reflexivity].
  unfold TodoistClient.get_project_id.
  change (TodoistClient.base_url (todoist_of w) +:+ "/projects") with projects_url.
  rewrite Hget. simpl.
  now rewrite (get_project_id_loop_none projects "Reflections" Hall Hno).
Qed.

(** X9.  An exception that is not an [Exception] (an interrupt) raised by
    the search is not turned into "not found": it leaves
    [find_page_by_name] and [main], and nothing is called or printed after
    the search. *)
Theorem main_search_interrupt_escapes (w : World) (project_id tasks : json) (e : exn) :
  reaches_search w project_id tasks ->
  notion_search w "Journal" = Raises e ->
  is_Exception e = false ->
  main w = (events_before_search w project_id tasks ++ [NotionSearch "Journal"], Raises e).
Proof.
  intros Hreach Hs He.
  rewrite (main_after_search w project_id tasks Hreach).
  now rewrite (find_page_by_name_raised w (notion_of w) "Journal" e Hs), He.
Qed.

End MainTodoist.

(** ** main: the order of the calls *)

Section Pipeline.
Import NotionClient.

Lemma calls_cons (ev : event) (l : list event) :
  filter (fun ev => is_network_call ev = true) (ev :: l)
  = if is_network_call ev
    then ev :: filter (fun ev => is_network_call ev = true) l
    else filter (fun ev => is_network_call ev = true) l.
Proof.
  destruct (is_network_call ev) eqn:E.
  - now rewrite filter_cons_True.
  - rewrite filter_cons_False; [reflexivity|]. rewrite E. discriminate.
Qed.

Lemma calls_of_prints (l : list event) :
  Forall (fun ev => is_network_call ev = false) l ->
  filter (fun ev => is_network_call ev = true) l = [].
Proof.
  induction 1 as [|ev l Hev _ IH]; [reflexivity|].
  now rewrite calls_cons, Hev.
Qed.

(** X10.  The network calls of a run of [main] are, in this order and each
    at most once, the request for the projects, the request for the tasks
    of the project found, the search for "Journal", the retrieval of the
    destination page and the creation of a child of that page: every run
    makes a beginning of this sequence, and nothing else. *)
Theorem main_calls_in_order (w : World) :
  exists (project_id journal_page_id : json) (children : list json),
    network_calls (main w) `prefix_of` pipeline w project_id journal_page_id children.
Proof.
  unfold network_calls, trace, pipeline.
  destruct (main_before_search w)
    as [H|[[e H]|[H|[(project_id & e & H)|(project_id & tasks & Hreach)]]]].
  - exists JNull, JNull, []. rewrite H. simpl fst. rewrite calls_cons. simpl.
    apply prefix_nil.
  - exists JNull, JNull, []. rewrite H. simpl fst. rewrite calls_cons. simpl.
    eexists. reflexivity.
  - exists JNull, JNull, []. rewrite H. simpl fst. rewrite !calls_cons. simpl.
    eexists. reflexivity.
  - exists project_id, JNull, []. rewrite H. simpl fst. rewrite !calls_cons. simpl.
    eexists. reflexivity.
  - rewrite (main_after_search w project_id tasks Hreach).
    destruct (find_page_by_name_shape w (notion_of w) "Journal")
      as [[found Hf]|[(e & He & Hf)|(e & He & _ & Hf)]]; rewrite Hf;
      try rewrite main_from_access_run.
    + destruct (notion_retrieve w (journal_page_id_of found)) as [page|e].
      * destruct (build_content_blocks tasks) as [children|e].
        -- exists project_id, (journal_page_id_of found), children.
           simpl. rewrite !calls_cons. simpl.
           rewrite (calls_of_prints _ (after_create_prints _ tasks)).
           eexists. rewrite app_nil_r. reflexivity.
        -- exists project_id, (journal_page_id_of found), [].
           simpl. rewrite !calls_cons. simpl. eexists. reflexivity.
      * exists project_id, (journal_page_id_of found), [].
        destruct (is_Exception e); simpl; rewrite !calls_cons; simpl;
          eexists; reflexivity.
    + destruct (notion_retrieve w (journal_page_id_of JNull)) as [page|e'].
      * destruct (build_content_blocks tasks) as [children|e'].
        -- exists project_id, (journal_page_id_of JNull), children.
           simpl. rewrite !calls_cons. simpl.
           rewrite (calls_of_prints _ (after_create_prints _ tasks)).
           eexists. rewrite app_nil_r. reflexivity.
        -- exists project_id, (journal_page_id_of JNull), [].
           simpl. rewrite !calls_cons. simpl. eexists. reflexivity.
      * exists project_id, (journal_page_id_of JNull), [].
        destruct (is_Exception e'); simpl; rewrite !calls_cons; simpl;
          eexists; reflexivity.
    + exists project_id, JNull, []. simpl.
      rewrite !calls_cons. simpl. eexists. reflexivity.
Qed.

End Pipeline.

(** ** main: the page that is created *)

Section CreatedPage.
Import NotionClient.

Lemma create_not_in_prints (l : list event) (parent properties : json)
      (children : list json) :
  Forall (fun ev => is_network_call ev = false) l ->
  NotionCreate parent properties children ∉ l.
Proof.
  intros Hl Hin. rewrite Forall_forall in Hl. specialize (Hl _ Hin). discriminate.
Qed.

(** A run of [main] in which a page-creation call is made: it got to the
    search, the search returned, the access check succeeded, the blocks
    were built, and the call is the one for these. *)
Lemma main_create_run
    (w : World) (parent properties : json) (children : list json) :
  NotionCreate parent properties children ∈ trace (main w) ->
  exists (project_id tasks found page : json) (t : list event),
    reaches_search w project_id tasks /\
    find_page_by_name w (notion_of w) "Journal" = (t, Returns found) /\
    notion_retrieve w (journal_page_id_of found) = Returns page /\
    build_content_blocks tasks = Returns children /\
    parent = JObj [("page_id", journal_page_id_of found)] /\
    properties = title_properties (week_title (now w)) /\
    main w
    = (events_before_search w project_id tasks ++ t
         ++ [found_journal_page;
             NotionRetrieve (journal_page_id_of found);
             creating_page (week_title (now w));
             NotionCreate parent properties children]
         ++ trace (after_create (notion_create w parent properties children) tasks),
       result (after_create (notion_create w parent properties children) tasks)).
Proof.
  intros Hin.
  destruct (main_before_search w)
    as [H|[[e H]|[H|[(project_id & e & H)|(project_id & tasks & Hreach)]]]];
    try (exfalso; rewrite H in Hin; simpl in Hin;
         repeat (apply elem_of_cons in Hin as [Hin|Hin]; [discriminate Hin|]);
         inversion Hin).
  pose proof (find_page_by_name_before_access w (notion_of w) "Journal") as Hq.
  rewrite (main_after_search w project_id tasks Hreach) in Hin |- *.
  destruct (find_page_by_name w (notion_of w) "Journal") as [t [found|e]] eqn:Hf;
    simpl in Hq, Hin.
  - do 4 (apply elem_of_cons in Hin as [Hin|Hin]; [discriminate Hin|]).
    apply elem_of_app in Hin as [Hin|Hin];
      [exfalso; exact (not_before_access_create _ _ _ _ Hq Hin)|].
    apply elem_of_cons in Hin as [Hin|Hin]; [discriminate Hin|].
    rewrite main_from_access_run in Hin |- *.
    destruct (notion_retrieve w (journal_page_id_of found)) as [page|e] eqn:Hr.
    + destruct (build_content_blocks tasks) as [children'|e] eqn:Hb.
      * simpl in Hin.
        apply elem_of_cons in Hin as [Hin|Hin]; [discriminate Hin|].
        apply elem_of_cons in Hin as [Hin|Hin]; [discriminate Hin|].
        apply elem_of_cons in Hin as [Hin|Hin];
          [|exfalso; exact (create_not_in_prints _ _ _ _ (after_create_prints _ tasks) Hin)].
        unfold create_call in Hin. injection Hin as -> -> ->.
        exists project_id, tasks, found, page, t.
        repeat (split; [assumption || reflexivity|]). reflexivity.
      * exfalso. simpl in Hin.
        repeat (apply elem_of_cons in Hin as [Hin|Hin]; [discriminate Hin|]).
        inversion Hin.
    + exfalso. destruct (is_Exception e); simpl in Hin;
        repeat (apply elem_of_cons in Hin as [Hin|Hin]; [discriminate Hin|]);
        inversion Hin.
  - exfalso. do 4 (apply elem_of_cons in Hin as [Hin|Hin]; [discriminate Hin|]).
    exact (not_before_access_create _ _ _ _ Hq Hin).
Qed.

End CreatedPage.

Section CreatedPageProperties.
Import NotionClient.

Lemma append_tasks_Returns_inv (tasks acc children : list json) :
  append_tasks acc tasks = Returns children ->
  exists contents : list json,
    Forall2 content_is tasks contents /\
    children = acc ++ map bulleted_list_item contents.
Proof.
  revert acc. induction tasks as [|task tasks IH]; intros acc; simpl.
  - intros [= <-]. exists []. split; [constructor|now rewrite app_nil_r].
  - destruct (Py.getitem task "content") as [content|e] eqn:Hc; [|discriminate].
    simpl. intros H. destruct (IH _ H) as (contents & Hall & ->).
    exists (content :: contents). split; [now constructor|].
    now rewrite <- app_assoc.
Qed.

(** The blocks that can come out of [build_content_blocks]: the paragraph
    for falsy tasks, the heading and one item per task for a non-empty
    list of tasks with a content; nothing else. *)
Lemma build_content_blocks_Returns_inv (tasks : json) (children : list json) :
  build_content_blocks tasks = Returns children ->
  (Py.truthy tasks = false /\ children = [paragraph])
  \/ exists items contents : list json,
      tasks = JArr items /\ items <> [] /\
      Forall2 content_is items contents /\
      children = heading_2 :: map bulleted_list_item contents.
Proof.
  unfold build_content_blocks.
  destruct (Py.truthy tasks) eqn:Ht; [|intros [= <-]; now left].
  intros H. right.
  destruct tasks as [|b|z|f|s|items|fields]; try discriminate.
  - (* a non-empty str: its characters have no content *)
    destruct s as [|c s]; [discriminate|]. discriminate.
  - destruct items as [|task items]; [discriminate|].
    change (append_tasks ([] ++ [heading_2]) (task :: items) = Returns children) in H.
    destruct (append_tasks_Returns_inv _ _ _ H) as (contents & Hall & ->).
    exists (task :: items), contents. repeat split; [discriminate|assumption].
  - (* a non-empty dict: its keys have no content *)
    destruct fields as [|kv fields]; [discriminate|]. discriminate.
Qed.

Lemma bulleted_count_items (contents : list json) :
  bulleted_count (map bulleted_list_item contents) = length contents.
Proof.
  unfold bulleted_count. induction contents as [|c contents IH]; [reflexivity|].
  simpl map. rewrite filter_cons_True by reflexivity. simpl. now rewrite IH.
Qed.

Lemma len_is_bulleted_count (tasks : json) (children : list json) (n : Z) :
  build_content_blocks tasks = Returns children ->
  Py.len tasks = Returns n ->
  n = Z.of_nat (bulleted_count children).
Proof.
  intros Hb Hlen.
  destruct (build_content_blocks_Returns_inv tasks children Hb)
    as [[Ht ->]|(items & contents & -> & _ & Hall & ->)].
  - change (bulleted_count [paragraph]) with 0%nat.
    destruct tasks as [|b|z|f|s|items|fields]; try discriminate.
    + destruct s; [|discriminate]. now injection Hlen as <-.
    + destruct items; [|discriminate]. now injection Hlen as <-.
    + destruct fields; [|discriminate]. now injection Hlen as <-.
  - injection Hlen as <-.
    change (heading_2 :: map bulleted_list_item contents)
      with ([heading_2] ++ map bulleted_list_item contents).
    unfold bulleted_count. rewrite filter_app, length_app.
    fold (bulleted_count (map bulleted_list_item contents)).
    rewrite bulleted_count_items, (Forall2_length _ _ _ Hall).
    rewrite filter_cons_False by discriminate. reflexivity.
Qed.

Lemma after_create_escapes (created : outcome json) (tasks : json) (e : exn) :
  result (after_create created tasks) = Raises e -> is_Exception e = false.
Proof.
  unfold after_create. destruct created as [page|e'].
  - destruct (Py.getitem page "id"); [destruct (Py.len tasks)|]; discriminate.
  - destruct (is_Exception e') eqn:He; [discriminate|]. now intros [= <-].
Qed.

(** X11.  [main] creates a page only under a parent it has just retrieved
    with success: the creation call follows the retrieval of its parent,
    with the line announcing the title in between; and the parent is
    either the fallback page or the page the search found. *)
Theorem main_creates_under_retrieved_parent
    (w : World) (parent properties : json) (children : list json) :
  NotionCreate parent properties children ∈ trace (main w) ->
  exists (journal_page_id page : json) (pre post : list event),
    parent = JObj [("page_id", journal_page_id)] /\
    notion_retrieve w journal_page_id = Returns page /\
    trace (main w)
    = pre ++ [NotionRetrieve journal_page_id;
              creating_page (week_title (now w));
              NotionCreate parent properties children] ++ post /\
    (journal_page_id = fallback_journal_page_id \/
     (Py.truthy journal_page_id = true /\
      result (find_page_by_name w (notion_of w) "Journal") = Returns journal_page_id)).
Proof.
  intros Hin.
  destruct (main_create_run w parent properties children Hin)
    as (project_id & tasks & found & page & t & _ & Hf & Hr & _ & Hparent & _ & Hmain).
  exists (journal_page_id_of found), page,
    (events_before_search w project_id tasks ++ t ++ [found_journal_page]),
    (trace (after_create (notion_create w parent properties children) tasks)).
  split; [exact Hparent|]. split; [exact Hr|]. split.
  - rewrite Hmain. simpl trace. now rewrite <- !app_assoc.
  - unfold journal_page_id_of. rewrite Hf.
    destruct (Py.truthy found) eqn:Ht; simpl; [right|left]; auto.
Qed.

(** X12.  The children of the page [main] creates are the blocks of the
    tasks fetched for the project that was resolved, as the service
    returned them: the paragraph when there is no task, otherwise the
    heading followed by one item per task, in the order of the answer. *)
Theorem main_creates_page_of_fetched_tasks
    (w : World) (parent properties : json) (children : list json) :
  NotionCreate parent properties children ∈ trace (main w) ->
  exists project_id tasks : json,
    result (TodoistClient.get_project_id w (todoist_of w) "Reflections")
    = Returns project_id /\
    http_get w tasks_url [("project_id", project_id)] = Returns tasks /\
    ((Py.len tasks = Returns 0 /\ children = [paragraph])
     \/ exists items contents : list json,
         tasks = JArr items /\ items <> [] /\
         Forall2 content_is items contents /\
         children = heading_2 :: map bulleted_list_item contents).
Proof.
  intros Hin.
  destruct (main_create_run w parent properties children Hin)
    as (project_id & tasks & found & page & t & Hreach & _ & _ & Hb & _).
  destruct Hreach as (_ & Hpid & _ & Htasks & n & Hlen).
  exists project_id, tasks. split; [exact Hpid|]. split; [exact Htasks|].
  destruct (build_content_blocks_Returns_inv tasks children Hb) as [[Ht ->]|H];
    [left|now right].
  split; [|reflexivity].
  rewrite Hlen. f_equal.
  apply (len_is_bulleted_count tasks [paragraph] n); [|exact Hlen].
  unfold build_content_blocks. now rewrite Ht.
Qed.

(** X13.  When the creation call succeeds but its answer has no id, the
    page exists and [main] nevertheless reports an error: it prints
    "Error creating page: " with the [KeyError] (or [TypeError]) as its
    last line, prints no confirmation, and returns normally. *)
Theorem main_created_page_without_id
    (w : World) (parent properties : json) (children : list json) (page : json) (e : exn) :
  NotionCreate parent properties children ∈ trace (main w) ->
  notion_create w parent properties children = Returns page ->
  Py.getitem page "id" = Raises e ->
  result (main w) = Returns tt /\
  exists pre : list event,
    trace (main w) = pre ++ [NotionCreate parent properties children; error_creating e].
Proof.
  intros Hin Hcreate Hid.
  destruct (main_create_run w parent properties children Hin)
    as (project_id & tasks & found & page' & t & _ & _ & _ & _ & _ & _ & Hmain).
  rewrite Hmain. unfold after_create. rewrite Hcreate, Hid.
  split; [reflexivity|].
  exists (events_before_search w project_id tasks ++ t
            ++ [found_journal_page; NotionRetrieve (journal_page_id_of found);
                creating_page (week_title (now w))]).
  simpl trace. now rewrite <- !app_assoc.
Qed.

(** X14.  When the creation call succeeds and answers with an id, [main]
    ends with two lines, the id of the new page and the number of tasks,
    and returns normally; the number printed is the number of bulleted
    items of the page that was created. *)
Theorem main_confirms_created_page
    (w : World) (parent properties : json) (children : list json) (page page_id : json) :
  NotionCreate parent properties children ∈ trace (main w) ->
  notion_create w parent properties children = Returns page ->
  Py.getitem page "id" = Returns page_id ->
  result (main w) = Returns tt /\
  exists pre : list event,
    trace (main w)
    = pre ++ [NotionCreate parent properties children;
              created_page page_id;
              page_contains (Z.of_nat (bulleted_count children))].
Proof.
  intros Hin Hcreate Hid.
  destruct (main_create_run w parent properties children Hin)
    as (project_id & tasks & found & page' & t & Hreach & _ & _ & Hb & _ & _ & Hmain).
  destruct Hreach as (_ & _ & _ & _ & n & Hlen).
  rewrite Hmain. unfold after_create. rewrite Hcreate, Hid, Hlen.
  rewrite (len_is_bulleted_count tasks children n Hb Hlen).
  split; [reflexivity|].
  exists (events_before_search w project_id tasks ++ t
            ++ [found_journal_page; NotionRetrieve (journal_page_id_of found);
                creating_page (week_title (now w))]).
  simpl trace. now rewrite <- !app_assoc.
Qed.

(** X15.  Once the search has been sent, no [Exception] leaves [main]:
    whatever the search, the access check, the building of the blocks or
    the creation raise is caught and printed.  What can still leave is an
    exception that is not an [Exception] (an interrupt). *)
Theorem main_catches_after_search (w : World) (query : string) (e : exn) :
  NotionSearch query ∈ trace (main w) ->
  result (main w) = Raises e ->
  is_Exception e = false.
Proof.
  intros Hin.
  destruct (main_before_search w)
    as [H|[[e' H]|[H|[(project_id & e' & H)|(project_id & tasks & Hreach)]]]];
    try (exfalso; rewrite H in Hin; simpl in Hin;
         repeat (apply elem_of_cons in Hin as [Hin|Hin]; [discriminate Hin|]);
         inversion Hin).
  clear Hin. rewrite (main_after_search w project_id tasks Hreach).
  destruct (find_page_by_name_shape w (notion_of w) "Journal")
    as [[found Hf]|[(e' & He' & Hf)|(e' & He' & _ & Hf)]]; rewrite Hf;
    try rewrite main_from_access_run.
  - destruct (notion_retrieve w (journal_page_id_of found)) as [page|e'].
    + destruct (build_content_blocks tasks); [|discriminate].
      apply after_create_escapes.
    + destruct (is_Exception e') eqn:He'; [discriminate|]. now intros [= <-].
  - destruct (notion_retrieve w (journal_page_id_of JNull)) as [page|e''].
    + destruct (build_content_blocks tasks); [|discriminate].
      apply after_create_escapes.
    + destruct (is_Exception e'') eqn:He''; [discriminate|]. now intros [= <-].
  - now intros [= <-].
Qed.

End CreatedPageProperties.

(** ** get_week_title: which dates share a title *)

Section WeekTitleDays.

Lemma in_all_month_days (m d : Z) :
  1 <= m <= 12 -> 1 <= d <= 31 -> (m, d) ∈ all_month_days.
Proof.
  intros Hm Hd. unfold all_month_days.
  apply list_elem_of_bind. exists m. split; [|apply elem_of_seqZ; lia].
  apply list_elem_of_bind. exists d. split; [|apply elem_of_seqZ; lia].
  now apply list_elem_of_singleton.
Qed.

Lemma titles_differ_everywhere :
  forallb (fun md1 => forallb (titles_differ md1) all_month_days) all_month_days = true.
Proof. vm_compute. reflexivity. Qed.

(** X16.  The week title tells the month and the day, and nothing of the
    year: two dates have the same title exactly when they have the same
    month and the same day of the month.  So the titles of two different
    days of a year never coincide, and the titles of a year come back the
    next year. *)
Theorem get_week_title_identifies_month_and_day (date1 date2 : datetime) :
  month_and_day_in_range date1 ->
  month_and_day_in_range date2 ->
  get_week_title date1 = get_week_title date2
  <-> month date1 = month date2 /\ day date1 = day date2.
Proof.
  intros [Hm1 Hd1] [Hm2 Hd2]. split.
  - intros Heq.
    pose proof titles_differ_everywhere as Hall.
    rewrite forallb_forall in Hall.
    specialize (Hall _ (proj1 (list_elem_of_In _ _)
                              (in_all_month_days _ _ Hm1 Hd1))).
    rewrite forallb_forall in Hall.
    specialize (Hall _ (proj1 (list_elem_of_In _ _)
                              (in_all_month_days _ _ Hm2 Hd2))).
    unfold titles_differ in Hall.
    change (title_of_month_day (month date1, day date1)) with (get_week_title date1) in Hall.
    change (title_of_month_day (month date2, day date2)) with (get_week_title date2) in Hall.
    rewrite Heq, String.eqb_refl in Hall. simpl in Hall.
    apply andb_prop in Hall as [H1 H2]. split; lia.
  - intros [Hm Hd]. unfold get_week_title, strftime_b_d. now rewrite Hm, Hd.
Qed.

End WeekTitleDays.

(** ** main: where the Todoist token goes *)

Section Requests.
Import NotionClient.



End Requests.

(** ** Instances of the further properties *)

Section Instances2.
Import NotionClient.

Lemma inbox_is_not_reflections (p : json) :
  p ∈ [project "P0" "Inbox"] -> ~ name_is p "Reflections".
Proof. intros Hp. apply list_elem_of_singleton in Hp as ->. discriminate. Qed.

Lemma database_does_not_match (r : json) :
  r ∈ [database "D1"] -> ~ page_matches r "Journal".
Proof.
  intros Hr. apply list_elem_of_singleton in Hr as ->.
  intros (props & (fields & Heq & _ & Hprops & _) & _).
  injection Heq as <-. discriminate Hprops.
Qed.

Lemma page_without_id_matches : page_matches (page_without_id "title" "Journal") "Journal".
Proof.
  eexists. split.
  - eexists. split; [reflexivity|]. split; [reflexivity|].
    split; [reflexivity|discriminate].
  - eexists _, _, _. split; [reflexivity|]. split; reflexivity.
Qed.

Lemma get_project_id_entry_without_name_sample :
  http_get world_project_without_name projects_url []
  = Returns (JArr ([project "P0" "Inbox"] ++ project_without_name
                     :: [project "P1" "Reflections"])) /\
  result (TodoistClient.get_project_id world_project_without_name
                                       (todoist_of world_project_without_name)
                                       "Reflections")
  = Raises (KeyError (JStr "name")).
Proof.
  split; [reflexivity|].
  apply (proj1 (get_project_id_entry_without_name
                  world_project_without_name (todoist_of world_project_without_name)
                  [project "P0" "Inbox"] [project "P1" "Reflections"]
                  project_without_name "Reflections" eq_refl
                  ltac:(repeat constructor) inbox_is_not_reflections)
               [("id", JStr "P9")]); reflexivity.
Defined.

Lemma get_project_id_match_without_id_sample :
  name_is project_without_id "Reflections" /\
  result (TodoistClient.get_project_id world_project_without_id
                                       (todoist_of world_project_without_id)
                                       "Reflections")
  = Raises (KeyError (JStr "id")).
Proof.
  split; [reflexivity|].
  apply (get_project_id_match_without_id
           world_project_without_id (todoist_of world_project_without_id)
           [project "P0" "Inbox"] [project "P1" "Reflections"]
           [("name", JStr "Reflections")] "Reflections" eq_refl
           ltac:(repeat constructor) inbox_is_not_reflections); reflexivity.
Defined.

Lemma find_page_by_name_hidden_by_malformed_result_sample :
  Forall (fun r => well_formed_result r = true) [database "D1"] /\
  find_page_by_name world_malformed_result (notion_of world_malformed_result) "Journal"
  = ([NotionSearch "Journal"; error_finding_page "Journal" AttributeError], Returns JNull).
Proof.
  assert (H : Forall (fun r => well_formed_result r = true) [database "D1"])
    by (repeat constructor).
  split; [exact H|].
  apply (find_page_by_name_hidden_by_malformed_result
           world_malformed_result (notion_of world_malformed_result) "Journal"
           (search_response [database "D1"; JStr "oops"; page "J1" "title" "Journal"])
           [database "D1"] [page "J1" "title" "Journal"] (JStr "oops")
           eq_refl eq_refl H database_does_not_match).
  discriminate.
Defined.

Lemma find_page_by_name_match_without_id_sample :
  page_matches (page_without_id "title" "Journal") "Journal" /\
  find_page_by_name world_match_without_id (notion_of world_match_without_id) "Journal"
  = ([NotionSearch "Journal"; error_finding_page "Journal" (KeyError (JStr "id"))],
     Returns JNull).
Proof.
  split; [exact page_without_id_matches|].
  apply (find_page_by_name_match_without_id
           world_match_without_id (notion_of world_match_without_id) "Journal"
           (search_response [database "D1"; page_without_id "title" "Journal";
                             page "J2" "title" "Journal"])
           [database "D1"] [page "J2" "title" "Journal"] _
           eq_refl eq_refl ltac:(repeat constructor) database_does_not_match
           page_without_id_matches).
  reflexivity.
Defined.

Lemma find_page_by_name_without_results_sample :
  notion_search (world_with (Returns (JObj [("object", JStr "error")])) some_page new_page)
                "Journal"
  = Returns (JObj [("object", JStr "error")]) /\
  find_page_by_name (world_with (Returns (JObj [("object", JStr "error")]))
                                some_page new_page)
                    (NotionClient.__init__ "notion-secret") "Journal"
  = ([NotionSearch "Journal"; error_finding_page "Journal" (KeyError (JStr "results"))],
     Returns JNull).
Proof.
  split; [reflexivity|].
  apply (proj1 (find_page_by_name_without_results
                  (world_with (Returns (JObj [("object", JStr "error")])) some_page new_page)
                  (NotionClient.__init__ "notion-secret") "Journal" _ eq_refl)
               [("object", JStr "error")]); reflexivity.
Defined.

Lemma create_reflections_child_page_task_without_content_sample :
  Forall2 content_is [task "T1" "Reflect on sleep"] [JStr "Reflect on sleep"] /\
  Py.getitem task_without_content "content" = Raises (KeyError (JStr "content")) /\
  create_reflections_child_page
    world_journal_found (notion_of world_journal_found) (JStr "J1") "Reflections"
    (JArr ([task "T1" "Reflect on sleep"] ++ task_without_content
             :: [task "T2" "Plan the week"]))
  = ([], Raises (KeyError (JStr "content"))).
Proof.
  assert (H : Forall2 content_is [task "T1" "Reflect on sleep"] [JStr "Reflect on sleep"])
    by (repeat constructor).
  split; [exact H|]. split; [reflexivity|].
  exact (create_reflections_child_page_task_without_content
           world_journal_found (notion_of world_journal_found) (JStr "J1") "Reflections"
           _ [task "T2" "Plan the week"] _ task_without_content _ H eq_refl).
Defined.

Lemma main_todoist_errors_escape_sample :
  credentials_set world_todoist_down /\
  main world_todoist_down
  = ([projects_call world_todoist_down], Raises (RemoteError "503 Server Error")).
Proof.
  assert (H : credentials_set world_todoist_down) by (vm_compute; reflexivity).
  split; [exact H|].
  exact (proj1 (main_todoist_errors_escape world_todoist_down H)
               (RemoteError "503 Server Error") eq_refl).
Defined.

Lemma main_project_not_found_sample :
  credentials_set world_no_reflections /\
  main world_no_reflections
  = ([projects_call world_no_reflections; project_not_found], Returns tt).
Proof.
  assert (H : credentials_set world_no_reflections) by (vm_compute; reflexivity).
  split; [exact H|].
  apply (proj1 (main_project_not_found world_no_reflections H)
               [project "P0" "Inbox"; project "P3" "reflections"] eq_refl).
  - repeat constructor.
  - intros p Hp.
    apply elem_of_cons in Hp as [->|Hp]; [discriminate|].
    apply list_elem_of_singleton in Hp as ->. discriminate.
Defined.

Lemma main_search_interrupt_escapes_sample :
  reaches_search world_search_interrupted (JStr "P1") (JArr sample_tasks) /\
  result (main world_search_interrupted) = Raises (Interrupt "KeyboardInterrupt").
Proof.
  pose proof (sample_reaches_search (Raises (Interrupt "KeyboardInterrupt"))
                                    some_page new_page) as H.
  split; [exact H|].
  exact (f_equal snd (main_search_interrupt_escapes
                        world_search_interrupted _ _ (Interrupt "KeyboardInterrupt")
                        H eq_refl eq_refl)).
Defined.

Lemma journal_create_call_made :
  NotionCreate (JObj [("page_id", JStr "J1")])
               (title_properties "Reflections Nov 05 Week 1") sample_children
    ∈ trace (main world_journal_found).
Proof. vm_compute. repeat first [apply list_elem_of_here | apply list_elem_of_further]. Defined.

Lemma main_creates_under_retrieved_parent_sample :
  exists (journal_page_id page : json) (pre post : list event),
    JObj [("page_id", JStr "J1")] = JObj [("page_id", journal_page_id)] /\
    notion_retrieve world_journal_found journal_page_id = Returns page /\
    trace (main world_journal_found)
    = pre ++ [NotionRetrieve journal_page_id;
              creating_page (week_title (now world_journal_found));
              NotionCreate (JObj [("page_id", JStr "J1")])
                           (title_properties "Reflections Nov 05 Week 1")
                           sample_children] ++ post /\
    (journal_page_id = fallback_journal_page_id \/
     (Py.truthy journal_page_id = true /\
      result (find_page_by_name world_journal_found (notion_of world_journal_found)
                                "Journal") = Returns journal_page_id)).
Proof.
  exact (main_creates_under_retrieved_parent world_journal_found _ _ _
           journal_create_call_made).
Defined.

Lemma main_creates_page_of_fetched_tasks_sample :
  exists project_id tasks : json,
    result (TodoistClient.get_project_id world_journal_found
                                         (todoist_of world_journal_found) "Reflections")
    = Returns project_id /\
    http_get world_journal_found tasks_url [("project_id", project_id)] = Returns tasks /\
    ((Py.len tasks = Returns 0 /\ sample_children = [paragraph])
     \/ exists items contents : list json,
         tasks = JArr items /\ items <> [] /\
         Forall2 content_is items contents /\
         sample_children = heading_2 :: map bulleted_list_item contents).
Proof.
  exact (main_creates_page_of_fetched_tasks world_journal_found _ _ _
           journal_create_call_made).
Defined.

Lemma main_created_page_without_id_sample :
  NotionCreate (JObj [("page_id", JStr "J1")])
               (title_properties "Reflections Nov 05 Week 1") sample_children
    ∈ trace (main world_created_without_id) /\
  result (main world_created_without_id) = Returns tt.
Proof.
  assert (H : NotionCreate (JObj [("page_id", JStr "J1")])
                (title_properties "Reflections Nov 05 Week 1") sample_children
                ∈ trace (main world_created_without_id)).
  { vm_compute. repeat first [apply list_elem_of_here | apply list_elem_of_further]. }
  split; [exact H|].
  exact (proj1 (main_created_page_without_id world_created_without_id _ _ _
                  (JObj [("object", JStr "page")]) (KeyError (JStr "id"))
                  H eq_refl eq_refl)).
Defined.

Lemma main_confirms_created_page_sample :
  result (main world_journal_found) = Returns tt /\
  exists pre : list event,
    trace (main world_journal_found)
    = pre ++ [NotionCreate (JObj [("page_id", JStr "J1")])
                           (title_properties "Reflections Nov 05 Week 1")
                           sample_children;
              created_page (JStr "NEW");
              page_contains (Z.of_nat (bulleted_count sample_children))].
Proof.
  exact (main_confirms_created_page world_journal_found _ _ _
           (JObj [("id", JStr "NEW")]) (JStr "NEW")
           journal_create_call_made eq_refl eq_refl).
Defined.

Lemma main_catches_after_search_sample :
  NotionSearch "Journal" ∈ trace (main world_search_interrupted) /\
  result (main world_search_interrupted) = Raises (Interrupt "KeyboardInterrupt") /\
  is_Exception (Interrupt "KeyboardInterrupt") = false.
Proof.
  assert (H : NotionSearch "Journal" ∈ trace (main world_search_interrupted)).
  { vm_compute. repeat first [apply list_elem_of_here | apply list_elem_of_further]. }
  split; [exact H|]. split; [reflexivity|].
  exact (main_catches_after_search world_search_interrupted "Journal"
           (Interrupt "KeyboardInterrupt") H eq_refl).
Defined.

Lemma get_week_title_identifies_month_and_day_sample :
  month_and_day_in_range {| year := 2025; month := 11; day := 5 |} /\
  month_and_day_in_range {| year := 2026; month := 11; day := 5 |} /\
  get_week_title {| year := 2025; month := 11; day := 5 |}
  = get_week_title {| year := 2026; month := 11; day := 5 |}.
Proof.
  assert (H1 : month_and_day_in_range {| year := 2025; month := 11; day := 5 |})
    by (unfold month_and_day_in_range; simpl; lia).
  assert (H2 : month_and_day_in_range {| year := 2026; month := 11; day := 5 |})
    by (unfold month_and_day_in_range; simpl; lia).
  split; [exact H1|]. split; [exact H2|].
  apply (proj2 (get_week_title_identifies_month_and_day _ _ H1 H2)).
  split; reflexivity.
Defined.


End Instances2.
